(** * exceltools: the data-analysis page controller

    A shallow embedding of [static/js/data_analysis.js]: the click handlers
    [uploadFile] and [findDuplicates] and the three rendering helpers
    [displayFileInfo], [populateColumnSelect] and [displayPreview].

    The script is sequential JavaScript over a handful of DOM elements, one
    closed-over variable ([currentData]) and two HTTP endpoints.  It is
    embedded as programs of a small state-and-exception monad over a record
    [page] holding exactly the pieces of the document the script touches.
    A [throw] keeps every mutation made before it, as in JavaScript.  The
    outcome of a network call is an input of the model ([fetch_outcome]);
    each handler is split at its [await] into the part that runs on the click
    and the part that runs when the response settles. *)

From Stdlib Require Import String Ascii List Bool Arith NArith ZArith Lia.
From Stdlib Require Import DecimalString.
Import ListNotations.
Local Open Scope list_scope.
Local Open Scope string_scope.
#[local] Set Warnings "-register-all".

(** ** Faults raised by the engine *)

(** The two values that have no properties. *)
Inductive nullish : Type :=
  | Undefined
  | Null.

(** The [TypeError]s that the operations used by the script can raise, with
    what an engine words its message from. *)
Inductive fault : Type :=
  | ReadOfNullish (base : nullish) (prop : string)
                                    (* x.prop or x[0] where x is base *)
  | NotAFunction (callee : string)  (* x.forEach(...) where x has no forEach *)
  | NullishToObject (v : nullish)   (* Object.keys(v) / Object.values(v) *)
  | NoPrimitiveValue.               (* ToString of an object that shadows toString *)

(** Exceptions: [new Error(message)], an engine [TypeError], or the reason a
    [fetch] / [response.json()] promise rejects with. *)
Inductive exn : Type :=
  | Error (message : string)
  | TypeError (f : fault)
  | Rejection (name message : string).

(** Completion of an evaluation: a normal value or a thrown exception. *)
Inductive completion (A : Type) : Type :=
  | Normal (a : A)
  | Throw (e : exn).
Arguments Normal {A} a.
Arguments Throw {A} e.

(** ** The state-and-exception monad

    A computation runs on a state and gives a completion together with the
    state it leaves: a [Throw] does not undo what was written before it. *)
Section Monad.

Variable S : Type.

Definition M (A : Type) : Type := S -> completion A * S.

Definition ret {A} (a : A) : M A := fun s => (Normal a, s).

Definition bind {A B} (c : M A) (k : A -> M B) : M B :=
  fun s =>
    match c s with
    | (Normal a, s') => k a s'
    | (Throw e, s') => (Throw e, s')
    end.

Definition throw {A} (e : exn) : M A := fun s => (Throw e, s).

(** A pure evaluation that may throw. *)
Definition lift {A} (c : completion A) : M A := fun s => (c, s).

Definition read : M S := fun s => (Normal s, s).

Definition modify (f : S -> S) : M unit := fun s => (Normal tt, f s).

(** [try { c } catch (error) { handler error }] *)
Definition try_catch {A} (c : M A) (handler : exn -> M A) : M A :=
  fun s =>
    match c s with
    | (Normal a, s') => (Normal a, s')
    | (Throw e, s') => handler e s'
    end.

End Monad.

Arguments ret {S A} a.
Arguments bind {S A B} c k.
Arguments throw {S A} e.
Arguments lift {S A} c.
Arguments read {S}.
Arguments modify {S} f.
Arguments try_catch {S A} c handler.

Notation "x <- c ;; k" := (bind c (fun x => k))
  (at level 61, c at next level, right associativity).
Notation "c ;; k" := (bind c (fun _ => k))
  (at level 61, right associativity).

(** [array.forEach(f)] over the elements of an array already in hand. *)
Fixpoint forEach {S A} (f : A -> M S unit) (l : list A) : M S unit :=
  match l with
  | [] => ret tt
  | x :: rest => f x ;; forEach f rest
  end.

(** A [forEach] whose callback fills a node that is not yet in the document
    (a row under construction): the node is threaded as an accumulator. *)
Fixpoint forEach_into {S A B} (f : B -> A -> M S B) (l : list A) (node : B) : M S B :=
  match l with
  | [] => ret node
  | x :: rest => node' <- f node x ;; forEach_into f rest node'
  end.

(** ** Strings

    A string of the model is the UTF-8 text of a JavaScript string (a lone
    surrogate, which a JavaScript string may hold, in the same three-byte
    form).  JavaScript indexes a string by UTF-16 code unit: [code_units s]
    lists the one-unit strings [s[0]], [s[1]], ...  A character outside the
    basic plane (four bytes) is two units, its surrogates. *)

(** The three-byte form of a code unit from 0x800 on. *)
Definition unit3 (u : N) : string :=
  String (ascii_of_N (224 + u / 4096))
    (String (ascii_of_N (128 + (u / 64) mod 64))
       (String (ascii_of_N (128 + u mod 64)) EmptyString)).

Fixpoint code_units (s : string) : list string :=
  match s with
  | EmptyString => []
  | String a rest =>
      let lead := N_of_ascii a in
      if N.ltb lead 192 then
        (* one byte *)
        String a EmptyString :: code_units rest
      else if N.ltb lead 224 then
        (* two bytes *)
        match rest with
        | String b rest' => String a (String b EmptyString) :: code_units rest'
        | _ => [s]
        end
      else if N.ltb lead 240 then
        (* three bytes *)
        match rest with
        | String b (String c rest') =>
            String a (String b (String c EmptyString)) :: code_units rest'
        | _ => [s]
        end
      else
        (* four bytes: a surrogate pair *)
        match rest with
        | String b (String c (String d rest')) =>
            let point := ((lead - 240) * 262144 + (N_of_ascii b - 128) * 4096
                          + (N_of_ascii c - 128) * 64 + (N_of_ascii d - 128))%N in
            let offset := (point - 65536)%N in
            unit3 (55296 + offset / 1024) :: unit3 (56320 + offset mod 1024)
              :: code_units rest'
        | _ => [s]
        end
  end.

(** What the script takes from its host: the number type of the engine with
    its truthiness, its [Number::toString] and what [JSON.stringify] makes
    of a number, and the wording of the engine's [TypeError] messages.
    Nothing below depends on how a host implements them.

    [number_to_json n] is the number denoted by the text that
    [JSON.stringify] writes for [n], and [None] when it writes [null]: a
    finite number is written as [Number::toString] prints it, which reads
    back as the same number except that negative zero is written ["0"];
    the infinities and NaN are written [null]. *)
Class Host : Type := {
  number : Type;
  number_truthy : number -> bool;
  number_to_string : number -> string;
  number_to_json : number -> option number;
  type_error_message : fault -> string
}.

(** *** A host to run the model on

    Its numbers are the doubles that parsed JSON yields and that can be
    printed without rounding: the safe integers (magnitude below 2^53,
    printed in plain decimal digits), negative zero and the two
    infinities.  Its messages are worded as V8 words them. *)

Record safe_integer : Type := {
  safe_Z : Z;
  safe_bound : Z.ltb (Z.abs safe_Z) 9007199254740992 = true
}.

Inductive js_number : Type :=
  | Int (z : safe_integer)
  | NegativeZero
  | PositiveInfinity
  | NegativeInfinity.

(** The number of a small integer literal. *)
Abbreviation int z := (Int {| safe_Z := z%Z; safe_bound := eq_refl |}) (only parsing).

Definition sample_host : Host := {|
  number := js_number;
  number_truthy := fun n =>
    match n with
    | Int z => negb (Z.eqb (safe_Z z) 0)
    | NegativeZero => false
    | PositiveInfinity | NegativeInfinity => true
    end;
  number_to_string := fun n =>
    match n with
    | Int z => NilZero.string_of_int (Z.to_int (safe_Z z))
    | NegativeZero => "0"
    | PositiveInfinity => "Infinity"
    | NegativeInfinity => "-Infinity"
    end;
  number_to_json := fun n =>
    match n with
    | Int z => Some (Int z)
    | NegativeZero => Some (int 0)
    | PositiveInfinity | NegativeInfinity => None
    end;
  type_error_message := fun f =>
    match f with
    | ReadOfNullish Undefined p => "Cannot read properties of undefined (reading '" ++ p ++ "')"
    | ReadOfNullish Null p => "Cannot read properties of null (reading '" ++ p ++ "')"
    | NotAFunction c => c ++ " is not a function"
    | NullishToObject _ => "Cannot convert undefined or null to object"
    | NoPrimitiveValue => "Cannot convert object to primitive value"
    end
|}.

(** ** Values *)

Section Controller.

Context `{host : Host}.

(** [error.message] *)
Definition message (e : exn) : string :=
  match e with
  | Error m => m
  | TypeError f => type_error_message f
  | Rejection _ m => m
  end.

(** The values the script handles: what [JSON.parse] builds, and
    [undefined], which reading an absent property yields.  An object is the
    list of its own properties in its native iteration order (the order of
    [Object.keys] and [Object.values]). *)
Inductive value : Type :=
  | VUndefined
  | VNull
  | VBool (b : bool)
  | VNum (n : number)
  | VStr (s : string)
  | VArr (elems : list value)
  | VObj (props : list (string * value)).

(** ToBoolean *)
Definition truthy (v : value) : bool :=
  match v with
  | VUndefined | VNull => false
  | VBool b => b
  | VNum n => number_truthy n
  | VStr s => negb (String.eqb s "")
  | VArr _ | VObj _ => true
  end.

(** Own property lookup in an object. *)
Fixpoint lookup (k : string) (props : list (string * value)) : option value :=
  match props with
  | [] => None
  | (k', v) :: rest => if String.eqb k k' then Some v else lookup k rest
  end.

Definition has_key (k : string) (props : list (string * value)) : bool :=
  match lookup k props with Some _ => true | None => false end.

(** [v.name], for the names the script reads ([error], [filename], [stats],
    [rows], [columns], [duplicates], [preview], [count]): none of them is a
    property of a built-in prototype, so on anything but an object with that
    own property the read gives [undefined], and on [null] / [undefined] it
    throws. *)
Definition get (v : value) (name : string) : completion value :=
  match v with
  | VUndefined => Throw (TypeError (ReadOfNullish Undefined name))
  | VNull => Throw (TypeError (ReadOfNullish Null name))
  | VObj props =>
      match lookup name props with
      | Some x => Normal x
      | None => Normal VUndefined
      end
  | _ => Normal VUndefined
  end.

(** [v[0]] *)
Definition get0 (v : value) : completion value :=
  match v with
  | VUndefined => Throw (TypeError (ReadOfNullish Undefined "0"))
  | VNull => Throw (TypeError (ReadOfNullish Null "0"))
  | VArr [] => Normal VUndefined
  | VArr (x :: _) => Normal x
  | VStr s =>
      match code_units s with
      | [] => Normal VUndefined
      | unit :: _ => Normal (VStr unit)
      end
  | VObj props =>
      match lookup "0" props with
      | Some x => Normal x
      | None => Normal VUndefined
      end
  | _ => Normal VUndefined
  end.

(** ToString.  An array joins its elements with commas, [null] and
    [undefined] elements giving the empty string; a plain object gives
    ["[object Object]"] unless an own [toString] property (never callable in
    parsed JSON) shadows the inherited method, in which case no primitive
    value is found and the conversion throws. *)
Fixpoint ToString (v : value) : completion string :=
  match v with
  | VUndefined => Normal "undefined"
  | VNull => Normal "null"
  | VBool true => Normal "true"
  | VBool false => Normal "false"
  | VNum n => Normal (number_to_string n)
  | VStr s => Normal s
  | VArr elems =>
      (fix join (l : list value) : completion string :=
         match l with
         | [] => Normal ""
         | x :: rest =>
             let first :=
               match x with
               | VUndefined | VNull => Normal ""
               | _ => ToString x
               end in
             match first with
             | Throw e => Throw e
             | Normal s =>
                 match rest with
                 | [] => Normal s
                 | _ :: _ =>
                     match join rest with
                     | Throw e => Throw e
                     | Normal r => Normal (s ++ "," ++ r)
                     end
                 end
             end
         end) elems
  | VObj props =>
      if has_key "toString" props then Throw (TypeError NoPrimitiveValue)
      else Normal "[object Object]"
  end.

(** Conversion of a value assigned to [textContent], a nullable DOM string:
    [null] and [undefined] stand for the empty string, anything else is
    converted with ToString. *)
Definition text_of (v : value) : completion string :=
  match v with
  | VUndefined | VNull => Normal ""
  | _ => ToString v
  end.

(** Decimal index names ["0"], ["1"], ... of an array or a string. *)
Definition index_name (i : nat) : string := NilZero.string_of_uint (Nat.to_uint i).

(** The items of a string: one string per code unit. *)
Definition chars (s : string) : list value := map VStr (code_units s).

(** [Object.keys(v)] *)
Definition Object_keys (v : value) : completion (list string) :=
  match v with
  | VUndefined => Throw (TypeError (NullishToObject Undefined))
  | VNull => Throw (TypeError (NullishToObject Null))
  | VObj props => Normal (map fst props)
  | VArr elems => Normal (map index_name (seq 0 (List.length elems)))
  | VStr s => Normal (map index_name (seq 0 (List.length (code_units s))))
  | _ => Normal []
  end.

(** [Object.values(v)] *)
Definition Object_values (v : value) : completion (list value) :=
  match v with
  | VUndefined => Throw (TypeError (NullishToObject Undefined))
  | VNull => Throw (TypeError (NullishToObject Null))
  | VObj props => Normal (map snd props)
  | VArr elems => Normal elems
  | VStr s => Normal (chars s)
  | _ => Normal []
  end.

(** [x.forEach], about to be called: the elements when [x] is an array, a
    [TypeError] otherwise (no other parsed value has a callable [forEach]). *)
Definition forEach_of (x : value) (callee : string) : completion (list value) :=
  match x with
  | VUndefined => Throw (TypeError (ReadOfNullish Undefined "forEach"))
  | VNull => Throw (TypeError (ReadOfNullish Null "forEach"))
  | VArr elems => Normal elems
  | _ => Throw (TypeError (NotAFunction callee))
  end.

(** The value denoted by the text that [JSON.stringify] writes for [v]: a
    number is written as the host says ([null] for a non-finite one, ["0"]
    for negative zero), an [undefined] element of an array is written
    [null], a property whose value is [undefined] is left out; strings,
    booleans and [null] are written as they are, and the own properties of
    an object in their native order. *)
Fixpoint JSON_denoted (v : value) : value :=
  match v with
  | VNum n =>
      match number_to_json n with
      | Some m => VNum m
      | None => VNull
      end
  | VArr elems =>
      VArr (map (fun x => match x with
                          | VUndefined => VNull
                          | _ => JSON_denoted x
                          end) elems)
  | VObj props =>
      VObj ((fix members (l : list (string * value)) : list (string * value) :=
               match l with
               | [] => []
               | (k, x) :: rest =>
                   match x with
                   | VUndefined => members rest
                   | _ => (k, JSON_denoted x) :: members rest
                   end
               end) props)
  | _ => v
  end.

(** [JSON.stringify] of an object literal with the given properties.  The
    request body is kept as the value its text denotes. *)
Definition JSON_stringify (props : list (string * value)) : value :=
  JSON_denoted (VObj props).

(** ** The page *)

(** A [File] of the file picker; the script only passes it on. *)
Record file : Type := { file_name : string; file_content : string }.

(** An [<option>]: its [value] and its text. *)
Record option_el : Type := { opt_value : string; opt_text : string }.

(** The [dupeColumn] selection control: a drop-down, so at most one option
    is selected, and the first option added to an empty one becomes the
    selected one. *)
Record select_el : Type := {
  options : list option_el;
  selectedIndex : option nat
}.

(** [select.value] *)
Definition select_value (sel : select_el) : string :=
  match selectedIndex sel with
  | None => ""
  | Some i =>
      match nth_error (options sel) i with
      | Some o => opt_value o
      | None => ""
      end
  end.

(** [select.appendChild(option)] *)
Definition select_append (o : option_el) (sel : select_el) : select_el :=
  {| options := options sel ++ [o];
     selectedIndex := match selectedIndex sel with
                      | None => Some 0
                      | Some i => Some i
                      end |}.

(** Content of the [previewTable] element. *)
Inductive cell : Type :=
  | Th (text : string)
  | Td (text : string).

Definition tr : Type := list cell.

Inductive table_part : Type :=
  | Thead (rows : list tr)
  | Tbody (rows : list tr).

(** Network requests. *)
Inductive request_body : Type :=
  | FormData (entries : list (string * file))
  | JSON_text (denotes : value).

Record request : Type := {
  url : string;
  method : string;
  headers : list (string * string);
  body : request_body
}.

(** What the user and the network see of a run. *)
Inductive effect : Type :=
  | Alert (text : string)
  | Fetch (r : request)
  | ConsoleError (label : string) (error : exn).

(** The document as far as the script reads or writes it, the closed-over
    [currentData], and the effects so far, oldest first. *)
Record page : Type := {
  currentData : value;
  fileInput : list file;         (* fileInput.files *)
  filename : string;             (* textContent of #filename *)
  dimensions : string;           (* textContent of #dimensions *)
  dupeCount : string;            (* textContent of #dupeCount *)
  dupeColumn : select_el;
  previewTable : list table_part;
  resultsSection : string;       (* style.display of #resultsSection *)
  effects : list effect
}.

Definition set_currentData (v : value) (p : page) : page :=
  {| currentData := v; fileInput := fileInput p; filename := filename p;
     dimensions := dimensions p; dupeCount := dupeCount p;
     dupeColumn := dupeColumn p; previewTable := previewTable p;
     resultsSection := resultsSection p; effects := effects p |}.

Definition set_filename (t : string) (p : page) : page :=
  {| currentData := currentData p; fileInput := fileInput p; filename := t;
     dimensions := dimensions p; dupeCount := dupeCount p;
     dupeColumn := dupeColumn p; previewTable := previewTable p;
     resultsSection := resultsSection p; effects := effects p |}.

Definition set_dimensions (t : string) (p : page) : page :=
  {| currentData := currentData p; fileInput := fileInput p; filename := filename p;
     dimensions := t; dupeCount := dupeCount p;
     dupeColumn := dupeColumn p; previewTable := previewTable p;
     resultsSection := resultsSection p; effects := effects p |}.

Definition set_dupeCount (t : string) (p : page) : page :=
  {| currentData := currentData p; fileInput := fileInput p; filename := filename p;
     dimensions := dimensions p; dupeCount := t;
     dupeColumn := dupeColumn p; previewTable := previewTable p;
     resultsSection := resultsSection p; effects := effects p |}.

Definition set_dupeColumn (sel : select_el) (p : page) : page :=
  {| currentData := currentData p; fileInput := fileInput p; filename := filename p;
     dimensions := dimensions p; dupeCount := dupeCount p;
     dupeColumn := sel; previewTable := previewTable p;
     resultsSection := resultsSection p; effects := effects p |}.

Definition set_previewTable (t : list table_part) (p : page) : page :=
  {| currentData := currentData p; fileInput := fileInput p; filename := filename p;
     dimensions := dimensions p; dupeCount := dupeCount p;
     dupeColumn := dupeColumn p; previewTable := t;
     resultsSection := resultsSection p; effects := effects p |}.

Definition set_resultsSection (d : string) (p : page) : page :=
  {| currentData := currentData p; fileInput := fileInput p; filename := filename p;
     dimensions := dimensions p; dupeCount := dupeCount p;
     dupeColumn := dupeColumn p; previewTable := previewTable p;
     resultsSection := d; effects := effects p |}.

Definition emit (e : effect) (p : page) : page :=
  {| currentData := currentData p; fileInput := fileInput p; filename := filename p;
     dimensions := dimensions p; dupeCount := dupeCount p;
     dupeColumn := dupeColumn p; previewTable := previewTable p;
     resultsSection := resultsSection p; effects := effects p ++ [e] |}.

(** The page with its effect record set aside: what a run can have mutated. *)
Definition content (p : page) : page :=
  {| currentData := currentData p; fileInput := fileInput p; filename := filename p;
     dimensions := dimensions p; dupeCount := dupeCount p;
     dupeColumn := dupeColumn p; previewTable := previewTable p;
     resultsSection := resultsSection p; effects := [] |}.

Definition alert (text : string) : M page unit := modify (emit (Alert text)).
Definition fetch (r : request) : M page unit := modify (emit (Fetch r)).
Definition console_error (label : string) (error : exn) : M page unit :=
  modify (emit (ConsoleError label error)).

(** How the two awaited promises of a request settle: [fetch] rejects,
    [response.json()] rejects, or the body parses to [data]. *)
Inductive fetch_outcome : Type :=
  | FetchRejects (reason : exn)
  | JsonRejects (reason : exn)
  | JsonResolves (data : value).

(** [await fetch(...)] followed by [await response.json()]. *)
Definition await_json (o : fetch_outcome) : M page value :=
  match o with
  | FetchRejects e => throw e
  | JsonRejects e => throw e
  | JsonResolves data => ret data
  end.

(** ** The script *)

Definition displayFileInfo (data : value) : M page unit :=
  name <- lift (get data "filename") ;;
  t <- lift (text_of name) ;;
  modify (set_filename t) ;;
  stats <- lift (get data "stats") ;;
  rows <- lift (get stats "rows") ;;
  rows_text <- lift (ToString rows) ;;
  stats <- lift (get data "stats") ;;
  columns <- lift (get stats "columns") ;;
  columns_text <- lift (ToString columns) ;;
  modify (set_dimensions (rows_text ++ " rows × " ++ columns_text ++ " columns")) ;;
  stats <- lift (get data "stats") ;;
  duplicates <- lift (get stats "duplicates") ;;
  t <- lift (text_of duplicates) ;;
  modify (set_dupeCount t).

Definition populateColumnSelect (columns : value) : M page unit :=
  modify (set_dupeColumn {| options := []; selectedIndex := None |}) ;;
  cols <- lift (forEach_of columns "columns.forEach") ;;
  forEach (fun col =>
             v <- lift (ToString col) ;;
             t <- lift (text_of col) ;;
             let option := {| opt_value := v; opt_text := t |} in
             p <- read ;;
             modify (set_dupeColumn (select_append option (dupeColumn p))))
          cols.

Definition displayPreview (previewData : value) : M page unit :=
  modify (set_previewTable []) ;;
  (* Create header *)
  first <- lift (get0 previewData) ;;
  keys <- lift (Object_keys first) ;;
  headerRow <- forEach_into (fun headerRow col => ret (headerRow ++ [Th col])%list) keys [] ;;
  let thead := Thead [headerRow] in
  p <- read ;;
  modify (set_previewTable (previewTable p ++ [thead])) ;;
  (* Create body *)
  rows <- lift (forEach_of previewData "previewData.forEach") ;;
  tbody <- forEach_into
             (fun tbody row =>
                values <- lift (Object_values row) ;;
                tr <- forEach_into
                        (fun tr value =>
                           t <- lift (text_of value) ;;
                           ret (tr ++ [Td t])%list)
                        values [] ;;
                ret (tbody ++ [tr])%list)
             rows [] ;;
  p <- read ;;
  modify (set_previewTable (previewTable p ++ [Tbody tbody])).

(** *** uploadFile *)

Definition upload_request (f : file) : request :=
  {| url := "/data/upload"; method := "POST"; headers := [];
     body := FormData [("file", f)] |}.

(** The part of [uploadFile] that runs on the click, up to the [await]:
    [Some r] when request [r] was issued and the handler is suspended on it,
    [None] when the handler has returned. *)
Definition uploadFile_click : M page (option request) :=
  p <- read ;;
  match fileInput p with
  | [] => alert "Please select a file first" ;; ret None
  | file :: _ =>
      let r := upload_request file in
      fetch r ;; ret (Some r)
  end.

(** The [try] block of [uploadFile] from the [await] on. *)
Definition uploadFile_try (o : fetch_outcome) : M page unit :=
  data <- await_json o ;;
  error <- lift (get data "error") ;;
  (if truthy error
   then m <- lift (ToString error) ;; throw (Error m)
   else ret tt) ;;
  (* Store the data and display results *)
  modify (set_currentData data) ;;
  displayFileInfo data ;;
  columns <- lift (get data "columns") ;;
  populateColumnSelect columns ;;
  preview <- lift (get data "preview") ;;
  displayPreview preview ;;
  (* Show results section *)
  modify (set_resultsSection "block").

Definition uploadFile_catch (error : exn) : M page unit :=
  console_error "Error:" error ;;
  alert ("Error processing file: " ++ message error).

(** The part of [uploadFile] that runs when the request settles. *)
Definition uploadFile_settle (o : fetch_outcome) : M page unit :=
  try_catch (uploadFile_try o) uploadFile_catch.

(** [uploadFile], run from the click to its end on a request that settles
    as [o]. *)
Definition uploadFile (o : fetch_outcome) : M page unit :=
  pending <- uploadFile_click ;;
  match pending with
  | None => ret tt
  | Some _ => uploadFile_settle o
  end.

(** *** findDuplicates *)

Definition find_duplicates_request (data : value) (column : string) : request :=
  {| url := "/data/find_duplicates"; method := "POST";
     headers := [("Content-Type", "application/json")];
     body := JSON_text (JSON_stringify [("data", data); ("column", VStr column)]) |}.

Definition findDuplicates_catch (error : exn) : M page unit :=
  console_error "Error:" error ;;
  alert ("Error finding duplicates: " ++ message error).

(** The part of [findDuplicates] that runs on the click. *)
Definition findDuplicates_click : M page (option request) :=
  p <- read ;;
  if negb (truthy (currentData p)) then ret None
  else
    let column := select_value (dupeColumn p) in
    try_catch
      (preview <- lift (get (currentData p) "preview") ;;
       let r := find_duplicates_request preview column in
       fetch r ;; ret (Some r))
      (fun error => findDuplicates_catch error ;; ret None).

(** The [try] block of [findDuplicates] from the [await] on. *)
Definition findDuplicates_try (o : fetch_outcome) : M page unit :=
  data <- await_json o ;;
  error <- lift (get data "error") ;;
  (if truthy error
   then m <- lift (ToString error) ;; throw (Error m)
   else ret tt) ;;
  count <- lift (get data "count") ;;
  count_text <- lift (ToString count) ;;
  alert ("Found " ++ count_text ++ " duplicate entries") ;;
  duplicates <- lift (get data "duplicates") ;;
  displayPreview duplicates.

(** The part of [findDuplicates] that runs when the request settles. *)
Definition findDuplicates_settle (o : fetch_outcome) : M page unit :=
  try_catch (findDuplicates_try o) findDuplicates_catch.

(** [findDuplicates], run from the click to its end on a request that
    settles as [o]. *)
Definition findDuplicates (o : fetch_outcome) : M page unit :=
  pending <- findDuplicates_click ;;
  match pending with
  | None => ret tt
  | Some _ => findDuplicates_settle o
  end.

End Controller.

(** ** What the claims speak about *)

Section Vocabulary.

Context `{host : Host}.

(** A value that can be put in a cell: assigning it to [textContent] does
    not throw. *)
Definition renders (v : value) : bool :=
  match text_of v with
  | Normal _ => true
  | Throw _ => false
  end.

(** The scalar values of the data model: strings, numbers, booleans and
    [null]. *)
Definition is_scalar (v : value) : bool :=
  match v with
  | VNull | VBool _ | VNum _ | VStr _ => true
  | _ => false
  end.

(** The text a cell shows for [v]. *)
Definition cell_text (v : value) : string :=
  match text_of v with
  | Normal t => t
  | Throw _ => ""
  end.

(** The table the rendering contract describes for a sequence of row
    records: a header of the first record's keys, then one row of cells per
    record.  This definition follows the contract, not the script; it is
    what [displayPreview] is compared with. *)
Definition rendering (records : list (list (string * value))) : list table_part :=
  match records with
  | [] => []
  | first :: _ =>
      [Thead [map Th (map fst first)];
       Tbody (map (fun record => map (fun kv => Td (cell_text (snd kv))) record) records)]
  end.

Definition header_cells (t : list table_part) : list cell :=
  match t with
  | Thead [row] :: _ => row
  | _ => []
  end.

Definition body_rows (t : list table_part) : list tr :=
  match t with
  | [_; Tbody rows] => rows
  | _ => []
  end.

(** The [try] block of a handler threw: the invocation failed. *)
Definition fails (c : M page unit) (p : page) : Prop :=
  exists e, fst (c p) = Throw e.

(** A response that is a failure before anything is rendered: a promise
    rejected, or the body carries a truthy [error]. *)
Definition rejected_or_error (o : fetch_outcome) : bool :=
  match o with
  | FetchRejects _ | JsonRejects _ => true
  | JsonResolves data =>
      match get data "error" with
      | Normal error => truthy error
      | Throw _ => false
      end
  end.

(** The last notification shown. *)
Definition last_alert (p : page) : option string :=
  match rev (effects p) with
  | Alert text :: _ => Some text
  | _ => None
  end.

(** The shape of a successful upload response: no truthy [error], a
    [filename], [columns] names, the three [stats] and a [preview]. *)
Definition UploadResult (data : value) (name : string) (cols : list string)
    (rows columns duplicates : number) (preview : value) : Prop :=
  (exists error, get data "error" = Normal error /\ truthy error = false) /\
  get data "filename" = Normal (VStr name) /\
  get data "columns" = Normal (VArr (map VStr cols)) /\
  (exists stats,
      get data "stats" = Normal stats /\
      get stats "rows" = Normal (VNum rows) /\
      get stats "columns" = Normal (VNum columns) /\
      get stats "duplicates" = Normal (VNum duplicates)) /\
  get data "preview" = Normal preview.

(** The options [populateColumnSelect] is to leave for column names [cols]. *)
Definition options_of (cols : list string) : list option_el :=
  map (fun col => {| opt_value := col; opt_text := col |}) cols.

(** Every value of a record can be put in a cell. *)
Definition record_renders (record : list (string * value)) : Prop :=
  Forall (fun kv => renders (snd kv) = true) record.

(** The selector with one more option, named [col]. *)
Definition add_option (sel : select_el) (col : string) : select_el :=
  select_append {| opt_value := col; opt_text := col |} sel.

(** The selector after [populateColumnSelect] on column names [cols]. *)
Definition populated (cols : list string) : select_el :=
  {| options := options_of cols;
     selectedIndex := match cols with [] => None | _ :: _ => Some 0 end |}.

(** The page once a well-formed response is stored, its file information
    displayed and the selector populated. *)
Definition shown (data : value) (name : string) (cols : list string)
    (rows columns duplicates : number) (p : page) : page :=
  set_dupeColumn (populated cols)
    (set_dupeCount (number_to_string duplicates)
       (set_dimensions
          (number_to_string rows ++ " rows × " ++ number_to_string columns ++ " columns")
          (set_filename name (set_currentData data p)))).

(** A failed find-duplicates invocation leaves the preview table as it was. *)
Definition failure_keeps_table (o : fetch_outcome) (p : page) : Prop :=
  fails (findDuplicates_try o) p ->
  previewTable (snd (findDuplicates_settle o p)) = previewTable p.

(** Every body cell of the table rendered for [records] shows
    [String(value)] of its value. *)
Definition cells_show_String (records : list (list (string * value))) (p : page) : Prop :=
  Forall2
    (fun record row =>
       Forall2 (fun kv c => exists s, ToString (snd kv) = Normal s /\ c = Td s) record row)
    records
    (body_rows (previewTable (snd (displayPreview (VArr (map VObj records)) p)))).

(** Every number in [v] is written by [JSON.stringify] as a text that
    denotes it, and [v] holds no [undefined]: so it is with every parsed
    JSON value whose numbers are finite and not negative zero. *)
Fixpoint json_stable (v : value) : Prop :=
  match v with
  | VUndefined => False
  | VNum n => number_to_json n = Some n
  | VArr elems => fold_right and True (map json_stable elems)
  | VObj props => fold_right and True (map (fun kv => json_stable (snd kv)) props)
  | _ => True
  end.

(** The [data] of the body of the request a click issues is
    [currentData.preview] itself. *)
Definition request_data_is_preview (p : page) : Prop :=
  forall r q sent,
    findDuplicates_click p = (Normal (Some r), q) ->
    body r = JSON_text sent ->
    get sent "data" = get (currentData p) "preview".


End Vocabulary.

(** ** The page in the browser

    The script's outermost function runs once on [DOMContentLoaded]: it
    registers [uploadFile] and [findDuplicates] as the click listeners of
    the two buttons and starts [currentData] at [null].  From then on the
    page lives by events: clicks start a handler, which runs up to its
    [await]; a request in flight settles at some later point and the
    handler suspended on it resumes; in between the user may pick files or
    choose a column.  Nothing in the script stops a handler from being
    started while requests are in flight. *)

Section Browser.

Context `{host : Host}.

(** The value of a [nullish]. *)
Definition nullish_value (base : nullish) : value :=
  match base with
  | Undefined => VUndefined
  | Null => VNull
  end.

(** [String(v)] where the conversion does not throw. *)
Definition string_of (v : value) : string :=
  match ToString v with
  | Normal s => s
  | Throw _ => ""
  end.

(** The option [populateColumnSelect] builds for an entry of [columns]. *)
Definition option_of (col : value) : option_el :=
  {| opt_value := string_of col; opt_text := cell_text col |}.

(** The selector with one more option, built from [col]. *)
Definition add_option_of (sel : select_el) (col : value) : select_el :=
  select_append (option_of col) sel.

(** The response passed the [error] check of a handler. *)
Definition accepted (data : value) : bool :=
  match get data "error" with
  | Normal error => negb (truthy error)
  | Throw _ => false
  end.

(** The cell [displayPreview] builds for a value that can be shown. *)
Definition cell_of (v : value) (c : cell) : Prop :=
  exists t, text_of v = Normal t /\ c = Td t.

(** The table row [displayPreview] builds for an element of the row
    sequence: one cell per value of the element, in order. *)
Definition row_of (row : value) (cells : tr) : Prop :=
  exists values, Object_values row = Normal values /\ Forall2 cell_of values cells.

(** The settled request gives the handler nothing to work on: a promise
    rejected, or the body did not pass the [error] check. *)
Definition refused (o : fetch_outcome) : bool :=
  match o with
  | FetchRejects _ | JsonRejects _ => true
  | JsonResolves data => negb (accepted data)
  end.

Definition set_fileInput (files : list file) (p : page) : page :=
  {| currentData := currentData p; fileInput := files; filename := filename p;
     dimensions := dimensions p; dupeCount := dupeCount p;
     dupeColumn := dupeColumn p; previewTable := previewTable p;
     resultsSection := resultsSection p; effects := effects p |}.

(** The user chooses the [i]-th option of the selector, if there is one. *)
Definition choose (i : nat) (sel : select_el) : select_el :=
  if Nat.ltb i (List.length (options sel))
  then {| options := options sel; selectedIndex := Some i |}
  else sel.

(** The handler suspended on a request in flight. *)
Inductive suspended : Type :=
  | Upload
  | FindDuplicates.

Inductive event : Type :=
  | ClickUploadBtn
  | ClickFindDupesBtn
  | Settles (k : nat) (o : fetch_outcome)  (* the [k]-th request in flight settles as [o] *)
  | PicksFiles (files : list file)
  | ChoosesColumn (i : nat).

Record browser : Type := {
  document : page;
  in_flight : list suspended
}.

(** The [DOMContentLoaded] listener, on the page as the markup gives it. *)
Definition DOMContentLoaded (markup : page) : browser :=
  {| document := set_currentData VNull markup; in_flight := [] |}.

Fixpoint remove_nth {A} (k : nat) (l : list A) : list A :=
  match l, k with
  | [], _ => []
  | _ :: rest, O => rest
  | x :: rest, S k' => x :: remove_nth k' rest
  end.

(** A click runs the handler to its [await]: when a request was issued the
    handler joins the requests in flight. *)
Definition started (h : suspended) (r : completion (option request) * page)
    (b : browser) : browser :=
  match fst r with
  | Normal (Some _) => {| document := snd r; in_flight := in_flight b ++ [h] |}
  | _ => {| document := snd r; in_flight := in_flight b |}
  end.

Definition dispatch (ev : event) (b : browser) : browser :=
  match ev with
  | ClickUploadBtn => started Upload (uploadFile_click (document b)) b
  | ClickFindDupesBtn => started FindDuplicates (findDuplicates_click (document b)) b
  | Settles k o =>
      match nth_error (in_flight b) k with
      | Some Upload =>
          {| document := snd (uploadFile_settle o (document b));
             in_flight := remove_nth k (in_flight b) |}
      | Some FindDuplicates =>
          {| document := snd (findDuplicates_settle o (document b));
             in_flight := remove_nth k (in_flight b) |}
      | None => b
      end
  | PicksFiles files =>
      {| document := set_fileInput files (document b); in_flight := in_flight b |}
  | ChoosesColumn i =>
      {| document := set_dupeColumn (choose i (dupeColumn (document b))) (document b);
         in_flight := in_flight b |}
  end.

(** The page after a sequence of events, oldest first. *)
Definition run (events : list event) (b : browser) : browser :=
  fold_left (fun b ev => dispatch ev b) events b.

(** An effect that is a request to the duplicate-detection endpoint. *)
Definition is_find_duplicates_fetch (e : effect) : bool :=
  match e with
  | Fetch r => String.eqb (url r) "/data/find_duplicates"
  | _ => false
  end.

(** No response of the run passes the [error] check: every request that
    settles is refused. *)
Definition no_response_accepted (events : list event) : Prop :=
  Forall (fun ev => match ev with
                    | Settles _ o => refused o = true
                    | _ => True
                    end) events.

(** The effects of [p] that came after those of [markup]. *)
Definition effects_since (markup p : page) (l : list effect) : Prop :=
  effects p = (effects markup ++ l)%list.

(** The pages [p] and [q] show the same: they agree on everything but the
    effects so far. *)
Definition same_content (p q : page) : Prop := content p = content q.

End Browser.

(** ** Sample data

    A page as the host markup leaves it, and responses of the two endpoints,
    on [sample_host]. *)

Module Samples.

#[local] Existing Instance sample_host.

Definition fresh_page : @page sample_host :=
  {| currentData := VNull;
     fileInput := [];
     filename := "";
     dimensions := "";
     dupeCount := "";
     dupeColumn := {| options := []; selectedIndex := None |};
     previewTable := [];
     resultsSection := "none";
     effects := [] |}.

Definition people_records : list (list (string * @value sample_host)) :=
  [ [("name", VStr "Ann"); ("age", VNum (int 31))];
    [("name", VStr "Bob"); ("age", VNum (int 27))];
    [("name", VStr "Ann"); ("age", VNum (int 40))] ].

(** A successful upload response. *)
Definition people_upload : @value sample_host :=
  VObj [("filename", VStr "people.csv");
        ("columns", VArr [VStr "name"; VStr "age"]);
        ("stats", VObj [("rows", VNum (int 3)); ("columns", VNum (int 2));
                        ("duplicates", VNum (int 0))]);
        ("preview", VArr (map VObj people_records))].

(** The same response for a file without rows. *)
Definition empty_upload : @value sample_host :=
  VObj [("filename", VStr "empty.csv");
        ("columns", VArr [VStr "name"; VStr "age"]);
        ("stats", VObj [("rows", VNum (int 0)); ("columns", VNum (int 2));
                        ("duplicates", VNum (int 0))]);
        ("preview", VArr [])].

Definition error_upload : @value sample_host :=
  VObj [("error", VStr "No file part")].

(** The page after [people_upload] was received on [fresh_page]. *)
Definition loaded_page : @page sample_host :=
  snd (uploadFile_settle (JsonResolves people_upload) fresh_page).

Definition ann_duplicates : @value sample_host :=
  VObj [("count", VNum (int 2));
        ("duplicates",
         VArr [VObj [("name", VStr "Ann"); ("age", VNum (int 31))];
               VObj [("name", VStr "Ann"); ("age", VNum (int 40))]])].

Definition no_duplicates : @value sample_host :=
  VObj [("count", VNum (int 0)); ("duplicates", VArr [])].


(** A successful upload response with a value beyond the range of doubles
    (written [1e999] in the response text). *)
Definition scores_upload : @value sample_host :=
  VObj [("filename", VStr "scores.csv");
        ("columns", VArr [VStr "name"; VStr "score"]);
        ("stats", VObj [("rows", VNum (int 1)); ("columns", VNum (int 2));
                        ("duplicates", VNum (int 0))]);
        ("preview", VArr [VObj [("name", VStr "Ann"); ("score", VNum PositiveInfinity)]])].

(** The page after [scores_upload] was received on [fresh_page]. *)
Definition scores_page : @page sample_host :=
  snd (uploadFile_settle (JsonResolves scores_upload) fresh_page).

(** A record with a missing value. *)
Definition record_with_null : list (string * @value sample_host) :=
  [("name", VStr "Ann"); ("email", VNull)].

End Samples.

(** Further inputs: malformed responses and pages in mid-session. *)

Module Cases.

#[local] Existing Instance sample_host.

(** A row sequence whose second element is [null]. *)
Definition rows_with_null : @value sample_host :=
  VArr [VObj [("name", VStr "Ann")]; VNull].

(** A row sequence of an array and a string. *)
Definition mixed_rows : @value sample_host :=
  VArr [VArr [VStr "a"; VNum (int 1)]; VStr "hé"].

Definition upload_without_stats : @value sample_host :=
  VObj [("filename", VStr "people.csv")].

Definition stats_without_rows : @value sample_host :=
  VObj [("columns", VNum (int 2)); ("duplicates", VNull)].

Definition upload_without_rows : @value sample_host :=
  VObj [("filename", VStr "people.csv"); ("stats", stats_without_rows)].


(** Column entries of which the second cannot be converted to a string. *)
Definition faulty_columns : @value sample_host :=
  VArr [VStr "name"; VObj [("toString", VNum (int 1))]; VStr "age"].

Definition failed_to_fetch : exn := Rejection "TypeError" "Failed to fetch".

(** The page after the body [{}] was received on a fresh page. *)
Definition page_after_empty_object : @page sample_host :=
  snd (uploadFile_settle (JsonResolves (VObj [])) Samples.fresh_page).

Definition count_only : @value sample_host := VObj [("count", VNum (int 1))].

Definition a_file : file := {| file_name := "people.csv"; file_content := "name,age" |}.

(** A session in which the only response is an error. *)
Definition refused_session : list (@event sample_host) :=
  [ClickFindDupesBtn; ClickUploadBtn; PicksFiles [a_file]; ClickUploadBtn;
   Settles 0 (JsonResolves Samples.error_upload); ClickFindDupesBtn].

Definition two_uploads_in_flight : @browser sample_host :=
  {| document := Samples.fresh_page; in_flight := [Upload; Upload] |}.

Definition one_upload_in_flight : @browser sample_host :=
  {| document := Samples.fresh_page; in_flight := [Upload] |}.

Definition file_picked : @browser sample_host :=
  {| document := set_fileInput [a_file] Samples.fresh_page; in_flight := [] |}.

End Cases.

(** ** Properties *)

Section Properties.

Context `{host : Host}.

Lemma prefix_app (p s : string) : prefix p (p ++ s) = true.
Proof.
  induction p as [| a p IH]; simpl.
  - destruct s; reflexivity.
  - destruct (ascii_dec a a) as [_ | ne]; [exact IH | contradiction].
Qed.

(** *** Loops *)

Lemma forEach_into_ret {A B} (g : A -> B) (l : list A) :
  forall (acc : list B) (p : page),
    forEach_into (fun node x => ret (node ++ [g x])%list) l acc p
    = (Normal (acc ++ map g l)%list, p).
Proof.
  induction l as [| x l IH]; intros acc p; simpl.
  - rewrite app_nil_r. reflexivity.
  - unfold bind at 1, ret at 1. rewrite IH, <- app_assoc. reflexivity.
Qed.

Lemma text_of_renders (v : value) :
  renders v = true -> text_of v = Normal (cell_text v).
Proof.
  unfold renders, cell_text. destruct (text_of v); [reflexivity | discriminate].
Qed.

(** Every scalar can be put in a cell. *)
Lemma scalar_renders (v : value) : is_scalar v = true -> renders v = true.
Proof.
  destruct v as [| | [|] | n | s | elems | props]; intros Hv;
    try discriminate Hv; reflexivity.
Qed.

Lemma row_cells (values : list value) :
  Forall (fun v => renders v = true) values ->
  forall (acc : tr) (p : page),
    forEach_into (fun tr value => t <- lift (text_of value) ;; ret (tr ++ [Td t])%list)
                 values acc p
    = (Normal (acc ++ map (fun v => Td (cell_text v)) values)%list, p).
Proof.
  induction 1 as [| v values Hv _ IH]; intros acc p; simpl.
  - rewrite app_nil_r. reflexivity.
  - unfold bind at 1, bind at 1, lift at 1, ret at 1.
    rewrite (text_of_renders v Hv), IH, <- app_assoc. reflexivity.
Qed.

Lemma body_of_records (records : list (list (string * value))) :
  Forall record_renders records ->
  forall (acc : list tr) (p : page),
    forEach_into
      (fun tbody row =>
         values <- lift (Object_values row) ;;
         tr <- forEach_into
                 (fun tr value => t <- lift (text_of value) ;; ret (tr ++ [Td t])%list)
                 values [] ;;
         ret (tbody ++ [tr])%list)
      (map VObj records) acc p
    = (Normal (acc ++ map (fun record => map (fun kv => Td (cell_text (snd kv))) record)
                          records)%list, p).
Proof.
  induction 1 as [| record records Hr _ IH]; intros acc p; simpl.
  - rewrite app_nil_r. reflexivity.
  - unfold bind at 1, bind at 1, lift at 1. simpl.
    unfold bind at 1.
    rewrite row_cells.
    + unfold ret at 1. rewrite IH, <- app_assoc, map_map. reflexivity.
    + unfold record_renders in Hr. rewrite Forall_map. exact Hr.
Qed.

(** [displayPreview] on a non-empty sequence of records whose values can be
    shown builds exactly the table of the rendering contract, whatever the
    table held before. *)
Lemma displayPreview_records (first : list (string * value))
    (rest : list (list (string * value))) (p : page) :
  Forall record_renders (first :: rest) ->
  displayPreview (VArr (map VObj (first :: rest))) p
  = (Normal tt, set_previewTable (rendering (first :: rest)) p).
Proof.
  intros Hall. unfold displayPreview.
  unfold bind at 1, modify at 1.
  unfold bind at 1, lift at 1. simpl get0. cbv iota.
  unfold bind at 1, lift at 1. simpl Object_keys. cbv iota.
  unfold bind at 1. rewrite forEach_into_ret.
  unfold bind at 1, read at 1.
  unfold bind at 1, modify at 1.
  unfold bind at 1, lift at 1. simpl forEach_of. cbv iota.
  unfold bind at 1.
  rewrite (body_of_records (first :: rest) Hall).
  unfold bind at 1, read at 1. unfold modify.
  reflexivity.
Qed.

(** A loop whose callback neither reads nor writes the page does neither. *)
Lemma forEach_into_pure {A B} (f : B -> A -> M page B) (l : list A) :
  (forall node x, exists c, forall q, f node x q = (c, q)) ->
  forall node, exists c, forall q, forEach_into f l node q = (c, q).
Proof.
  intros Hf. induction l as [| x l IH]; intros node; simpl.
  - exists (Normal node). reflexivity.
  - destruct (Hf node x) as [[node' | e] Hc].
    + destruct (IH node') as [c' Hc']. exists c'. intros q.
      unfold bind. rewrite Hc. apply Hc'.
    + exists (Throw e). intros q. unfold bind. rewrite Hc. reflexivity.
Qed.

Lemma row_loop_pure (values : list value) (cells : tr) :
  exists c, forall q : page,
    forEach_into (fun tr value => t <- lift (text_of value) ;; ret (tr ++ [Td t])%list)
                 values cells q
    = (c, q).
Proof.
  apply forEach_into_pure. intros node value. unfold bind, lift, ret.
  destruct (text_of value); eexists; reflexivity.
Qed.

Lemma body_loop_pure (rows : list value) (tbody : list tr) :
  exists c, forall q : page,
    forEach_into
      (fun tbody row =>
         values <- lift (Object_values row) ;;
         tr <- forEach_into
                 (fun tr value => t <- lift (text_of value) ;; ret (tr ++ [Td t])%list)
                 values [] ;;
         ret (tbody ++ [tr])%list)
      rows tbody q
    = (c, q).
Proof.
  apply forEach_into_pure. intros node row. unfold bind at 1, lift at 1.
  destruct (Object_values row) as [values | e]; [| eexists; reflexivity].
  destruct (row_loop_pure values []) as [[cells | e] Hrow];
    eexists; intros q; unfold bind at 1; rewrite Hrow; reflexivity.
Qed.

(** Whatever it is given and however it ends, [displayPreview] reads nothing
    of the page and writes the table only: its completion and the table it
    leaves depend on its argument alone. *)
Lemma displayPreview_only_table (v : value) :
  exists c t, forall p, displayPreview v p = (c, set_previewTable t p).
Proof.
  unfold displayPreview.
  destruct (get0 v) as [first | e] eqn:Efirst;
    [| exists (Throw e), []; intros p;
       unfold bind at 1, modify at 1; unfold bind at 1, lift at 1; reflexivity].
  destruct (Object_keys first) as [keys | e] eqn:Ekeys;
    [| exists (Throw e), []; intros p;
       unfold bind at 1, modify at 1; unfold bind at 1, lift at 1;
       unfold bind at 1, lift at 1; rewrite Ekeys; reflexivity].
  destruct (forEach_of v "previewData.forEach") as [rows | e] eqn:Erows;
    [| exists (Throw e), [Thead [map Th keys]]; intros p;
       unfold bind at 1, modify at 1; unfold bind at 1, lift at 1;
       unfold bind at 1, lift at 1; rewrite Ekeys;
       unfold bind at 1; rewrite forEach_into_ret;
       unfold bind at 1, read at 1; unfold bind at 1, modify at 1;
       unfold bind at 1, lift at 1; reflexivity].
  destruct (body_loop_pure rows []) as [[tbody | e] Hbody].
  - exists (Normal tt), [Thead [map Th keys]; Tbody tbody]. intros p.
    unfold bind at 1, modify at 1. unfold bind at 1, lift at 1.
    unfold bind at 1, lift at 1. rewrite Ekeys.
    unfold bind at 1. rewrite forEach_into_ret.
    unfold bind at 1, read at 1. unfold bind at 1, modify at 1.
    unfold bind at 1, lift at 1.
    unfold bind at 1. rewrite Hbody.
    reflexivity.
  - exists (Throw e), [Thead [map Th keys]]. intros p.
    unfold bind at 1, modify at 1. unfold bind at 1, lift at 1.
    unfold bind at 1, lift at 1. rewrite Ekeys.
    unfold bind at 1. rewrite forEach_into_ret.
    unfold bind at 1, read at 1. unfold bind at 1, modify at 1.
    unfold bind at 1, lift at 1.
    unfold bind at 1. rewrite Hbody.
    reflexivity.
Qed.

(** An empty row sequence: the table is emptied, then reading the keys of
    the absent first element throws. *)
Lemma displayPreview_empty (p : page) :
  displayPreview (VArr []) p
  = (Throw (TypeError (NullishToObject Undefined)), set_previewTable [] p).
Proof. reflexivity. Qed.

(** *** The column selector *)

Lemma populate_loop (cols : list string) :
  forall (sel : select_el) (p : page),
    forEach (fun col =>
               v <- lift (ToString col) ;;
               t <- lift (text_of col) ;;
               let option := {| opt_value := v; opt_text := t |} in
               q <- read ;;
               modify (set_dupeColumn (select_append option (dupeColumn q))))
            (map VStr cols) (set_dupeColumn sel p)
    = (Normal tt, set_dupeColumn (fold_left add_option cols sel) p).
Proof.
  induction cols as [| col cols IH]; intros sel p; simpl.
  - reflexivity.
  - unfold bind at 1. simpl.
    exact (IH (add_option sel col) p).
Qed.

Lemma options_fold (cols : list string) :
  forall sel, options (fold_left add_option cols sel) = (options sel ++ options_of cols)%list.
Proof.
  induction cols as [| col cols IH]; intros sel; simpl.
  - rewrite app_nil_r. reflexivity.
  - rewrite IH. simpl. rewrite <- app_assoc. reflexivity.
Qed.

Lemma selectedIndex_fold (cols : list string) :
  forall sel,
    selectedIndex (fold_left add_option cols sel)
    = match cols, selectedIndex sel with
      | _ :: _, None => Some 0
      | _, chosen => chosen
      end.
Proof.
  induction cols as [| col cols IH]; intros sel; simpl.
  - destruct (selectedIndex sel); reflexivity.
  - rewrite IH. simpl. destruct cols, (selectedIndex sel); reflexivity.
Qed.

Lemma fold_from_empty (cols : list string) :
  fold_left add_option cols {| options := []; selectedIndex := None |} = populated cols.
Proof.
  pose proof (options_fold cols {| options := []; selectedIndex := None |}) as Ho.
  pose proof (selectedIndex_fold cols {| options := []; selectedIndex := None |}) as Hs.
  destruct (fold_left add_option cols _) as [os ix]. simpl in Ho, Hs.
  unfold populated. subst os ix. destruct cols; reflexivity.
Qed.

Lemma populateColumnSelect_names (cols : list string) (p : page) :
  populateColumnSelect (VArr (map VStr cols)) p
  = (Normal tt, set_dupeColumn (populated cols) p).
Proof.
  unfold populateColumnSelect.
  unfold bind at 1, modify at 1.
  unfold bind at 1, lift at 1. simpl forEach_of. cbv iota.
  rewrite populate_loop, fold_from_empty. reflexivity.
Qed.

(** *** uploadFile *)

(** On a well-formed response the [try] block gets as far as the preview
    with the response stored and everything but the table displayed. *)
Lemma upload_reaches_preview (data : value) (name : string) (cols : list string)
    (rows columns duplicates : number) (preview : value) (p : page) :
  UploadResult data name cols rows columns duplicates preview ->
  uploadFile_try (JsonResolves data) p
  = (displayPreview preview ;; modify (set_resultsSection "block"))
      (shown data name cols rows columns duplicates p).
Proof.
  intros [[error [Herror Hfalsy]] [Hname [Hcols [[stats [Hstats [Hr [Hc Hd]]]] Hpreview]]]].
  unfold uploadFile_try, await_json.
  unfold bind at 1, ret at 1.
  unfold bind at 1, lift at 1. rewrite Herror.
  unfold bind at 1. rewrite Hfalsy. unfold ret at 1.
  unfold bind at 1, modify at 1.
  unfold bind at 1, displayFileInfo.
  unfold bind at 1, lift at 1. rewrite Hname.
  unfold bind at 1, lift at 1. simpl text_of. cbv iota.
  unfold bind at 1, modify at 1.
  unfold bind at 1, lift at 1. rewrite Hstats.
  unfold bind at 1, lift at 1. rewrite Hr.
  unfold bind at 1, lift at 1. simpl ToString. cbv iota.
  unfold bind at 1, lift at 1.
  unfold bind at 1, lift at 1. rewrite Hc.
  unfold bind at 1, lift at 1. simpl ToString. cbv iota.
  unfold bind at 1, modify at 1.
  unfold bind at 1, lift at 1.
  unfold bind at 1, lift at 1. rewrite Hd.
  unfold bind at 1, lift at 1. simpl text_of. cbv iota.
  unfold modify at 1.
  unfold bind at 1, lift at 1. rewrite Hcols.
  unfold bind at 1. rewrite populateColumnSelect_names.
  unfold bind at 1, lift at 1. rewrite Hpreview.
  reflexivity.
Qed.

(** A well-formed response whose preview is a non-empty sequence of records
    that can be shown: the upload runs to its end and reveals the results. *)
Lemma upload_success (data : value) (name : string) (cols : list string)
    (rows columns duplicates : number) (first : list (string * value))
    (rest : list (list (string * value))) (p : page) :
  UploadResult data name cols rows columns duplicates (VArr (map VObj (first :: rest))) ->
  Forall record_renders (first :: rest) ->
  uploadFile_settle (JsonResolves data) p
  = (Normal tt,
     set_resultsSection "block"
       (set_previewTable (rendering (first :: rest))
          (shown data name cols rows columns duplicates p))).
Proof.
  intros Hdata Hrecords. unfold uploadFile_settle, try_catch.
  rewrite (upload_reaches_preview _ _ _ _ _ _ _ _ Hdata).
  unfold bind at 1. rewrite (displayPreview_records _ _ _ Hrecords).
  reflexivity.
Qed.

(** A well-formed response is an object, hence truthy; once received it is
    what [currentData] holds, whether or not its preview then renders. *)
Lemma upload_stores_response (data : value) (name : string) (cols : list string)
    (rows columns duplicates : number) (preview : value) (p : page) :
  UploadResult data name cols rows columns duplicates preview ->
  truthy data = true /\
  currentData (snd (uploadFile_settle (JsonResolves data) p)) = data.
Proof.
  intros Hdata. split.
  - destruct Hdata as [_ [Hname _]].
    destruct data; try discriminate Hname; reflexivity.
  - unfold uploadFile_settle, try_catch.
    rewrite (upload_reaches_preview _ _ _ _ _ _ _ _ Hdata).
    destruct (displayPreview_only_table preview) as [c [t Ht]].
    unfold bind at 1. rewrite Ht. destruct c as [[] | e]; reflexivity.
Qed.

Lemma last_alert_emit (text : string) (p : page) :
  last_alert (emit (Alert text) p) = Some text.
Proof.
  unfold last_alert. simpl. rewrite rev_app_distr. reflexivity.
Qed.

(** The [error] check of both handlers on a response with a truthy [error]. *)
Lemma error_check_throws (data error : value) (p : page) (rest : M page unit) :
  get data "error" = Normal error ->
  truthy error = true ->
  exists e,
    (error <- lift (get data "error") ;;
     (if truthy error
      then m <- lift (ToString error) ;; throw (Error m)
      else ret tt) ;;
     rest) p = (Throw e, p)
    /\ (forall m, ToString error = Normal m -> e = Error m).
Proof.
  intros Hget Htruthy.
  destruct (ToString error) as [m | e] eqn:Em.
  - exists (Error m). split.
    + unfold bind at 1, lift at 1. rewrite Hget.
      unfold bind at 1. rewrite Htruthy.
      unfold bind at 1, lift at 1. rewrite Em. reflexivity.
    + intros m' Hm'. congruence.
  - exists e. split.
    + unfold bind at 1, lift at 1. rewrite Hget.
      unfold bind at 1. rewrite Htruthy.
      unfold bind at 1, lift at 1. rewrite Em. reflexivity.
    + intros m' Hm'. discriminate.
Qed.

(** *** The claims *)

(** C1, as amended.  When a find-duplicates invocation fails (its [try]
    block throws [e]), the last notification shown is
    ["Error finding duplicates: "] followed by the message of [e]; and when
    the failure is a rejected network call or JSON parse, or a truthy
    [error] field, nothing of the page is mutated: the preview table is as
    it was and the only effects are the logged error and that
    notification. *)
Theorem findDuplicates_failure_notifies (o : fetch_outcome) (p : page) (e : exn) :
  fst (findDuplicates_try o p) = Throw e ->
  let p' := snd (findDuplicates_settle o p) in
  let text := "Error finding duplicates: " ++ message e in
  last_alert p' = Some text /\
  prefix "Error finding duplicates: " text = true /\
  (rejected_or_error o = true ->
   p' = emit (Alert text) (emit (ConsoleError "Error:" e) p) /\
   previewTable p' = previewTable p).
Proof.
  intros Hthrow. cbv zeta. unfold findDuplicates_settle, try_catch.
  destruct (findDuplicates_try o p) as [c q] eqn:Etry. simpl in Hthrow. subst c.
  unfold findDuplicates_catch, bind, console_error, alert, modify. simpl snd.
  split; [apply last_alert_emit |].
  split; [apply prefix_app |].
  intros Hkind.
  assert (Hq : q = p).
  { unfold findDuplicates_try in Etry. destruct o as [r | r | data]; simpl in Hkind.
    - unfold await_json, bind, throw in Etry. congruence.
    - unfold await_json, bind, throw in Etry. congruence.
    - destruct (get data "error") as [error |] eqn:Eget; [| discriminate].
      unfold await_json in Etry. unfold bind at 1, ret at 1 in Etry.
      destruct (error_check_throws data error p
                  (count <- lift (get data "count") ;;
                   count_text <- lift (ToString count) ;;
                   alert ("Found " ++ count_text ++ " duplicate entries") ;;
                   duplicates <- lift (get data "duplicates") ;;
                   displayPreview duplicates) Eget Hkind) as [e' [Hrun _]].
      rewrite Hrun in Etry. congruence. }
  subst q. split; reflexivity.
Qed.

(** C2.  An upload response whose body has a truthy [error] leaves
    [currentData] unchanged, adds no option to the column selector, does
    not reveal the results section, and shows a notification that starts
    with ["Error processing file: "]; the page differs from the one before
    by the logged error and that notification only. *)
Theorem upload_error_response (data error : value) (p : page) :
  get data "error" = Normal error ->
  truthy error = true ->
  exists e p',
    uploadFile_settle (JsonResolves data) p = (Normal tt, p') /\
    p' = emit (Alert ("Error processing file: " ++ message e))
              (emit (ConsoleError "Error:" e) p) /\
    (forall m, ToString error = Normal m -> e = Error m) /\
    currentData p' = currentData p /\
    dupeColumn p' = dupeColumn p /\
    resultsSection p' = resultsSection p /\
    last_alert p' = Some ("Error processing file: " ++ message e) /\
    prefix "Error processing file: " ("Error processing file: " ++ message e) = true.
Proof.
  intros Hget Htruthy.
  destruct (error_check_throws data error p
              (modify (set_currentData data) ;;
               displayFileInfo data ;;
               columns <- lift (get data "columns") ;;
               populateColumnSelect columns ;;
               preview <- lift (get data "preview") ;;
               displayPreview preview ;;
               modify (set_resultsSection "block")) Hget Htruthy) as [e [Hrun Hmsg]].
  exists e. eexists. split; [| split; [reflexivity |]].
  - unfold uploadFile_settle, try_catch, uploadFile_try, await_json.
    unfold bind at 1, ret at 1. rewrite Hrun. reflexivity.
  - split; [exact Hmsg |]. repeat split.
    + apply last_alert_emit.
    + apply prefix_app.
Qed.

(** C3.  Rendering an empty row sequence does not complete normally: the
    first element is absent ([undefined]), reading its keys throws a
    [TypeError], and [displayPreview] ends with that exception (having
    emptied the table). *)
Theorem displayPreview_empty_throws (p : page) :
  get0 (VArr []) = Normal VUndefined /\
  Object_keys VUndefined = Throw (TypeError (NullishToObject Undefined)) /\
  displayPreview (VArr []) p
  = (Throw (TypeError (NullishToObject Undefined)), set_previewTable [] p).
Proof. repeat split. Qed.

(** C4, as amended.  For a non-empty sequence of R records whose values can
    each be shown (as every scalar can), of which the first has C keys, [displayPreview] completes
    and leaves in the table, whatever it held, exactly a header of C cells
    (the first record's keys, in order) and a body of R rows; a body row has
    one cell per value of its record, in order, and the text of a cell is
    the empty string when the value is [null] (or [undefined]) and
    [String(value)] otherwise. *)
Theorem displayPreview_renders_records (first : list (string * value))
    (rest : list (list (string * value))) (p : page) :
  Forall record_renders (first :: rest) ->
  let records := first :: rest in
  let table := previewTable (snd (displayPreview (VArr (map VObj records)) p)) in
  displayPreview (VArr (map VObj records)) p
  = (Normal tt, set_previewTable (rendering records) p) /\
  table = [Thead [header_cells table]; Tbody (body_rows table)] /\
  header_cells table = map Th (map fst first) /\
  List.length (header_cells table) = List.length first /\
  List.length (body_rows table) = List.length records /\
  body_rows table
  = map (fun record => map (fun kv => Td (cell_text (snd kv))) record) records /\
  (forall record v, In record records -> In v (map snd record) ->
     match v with
     | VUndefined | VNull => cell_text v = ""
     | _ => ToString v = Normal (cell_text v)
     end).
Proof.
  intros Hall. cbv zeta.
  rewrite (displayPreview_records first rest p Hall). simpl.
  repeat split.
  - rewrite !length_map. reflexivity.
  - rewrite length_map. reflexivity.
  - intros record v Hrecord Hv.
    assert (Hshown : renders v = true).
    { rewrite Forall_forall in Hall. specialize (Hall record Hrecord).
      unfold record_renders in Hall. rewrite Forall_forall in Hall.
      apply in_map_iff in Hv. destruct Hv as [kv [Hkv Hin]]. subst v.
      apply Hall. exact Hin. }
    apply text_of_renders in Hshown.
    destruct v; try reflexivity; exact Hshown.
Qed.

(** C5.  An upload click with no file selected shows the notification
    ["Please select a file first"] and returns: no request is issued and
    nothing else of the page changes, also when the handler is run to its
    end. *)
Theorem uploadFile_without_file (o : fetch_outcome) (p : page) :
  fileInput p = [] ->
  uploadFile_click p = (Normal None, emit (Alert "Please select a file first") p) /\
  uploadFile o p = (Normal tt, emit (Alert "Please select a file first") p) /\
  effects (snd (uploadFile o p)) = (effects p ++ [Alert "Please select a file first"])%list /\
  content (snd (uploadFile o p)) = content p.
Proof.
  intros Hnone.
  assert (Hclick : uploadFile_click p
                   = (Normal None, emit (Alert "Please select a file first") p)).
  { unfold uploadFile_click. unfold bind at 1, read at 1. rewrite Hnone. reflexivity. }
  assert (Hrun : uploadFile o p
                 = (Normal tt, emit (Alert "Please select a file first") p)).
  { unfold uploadFile. unfold bind at 1. rewrite Hclick. reflexivity. }
  rewrite Hrun. repeat split; assumption.
Qed.

(** C6.  While [currentData] is [null], a find-duplicates click does
    nothing: the handler returns at once with the page, effects included,
    as it was (no request, no notification, no change of the document). *)
Theorem findDuplicates_before_upload (o : fetch_outcome) (p : page) :
  currentData p = VNull ->
  findDuplicates_click p = (Normal None, p) /\
  findDuplicates o p = (Normal tt, p).
Proof.
  intros Hnull.
  assert (Hclick : findDuplicates_click p = (Normal None, p)).
  { unfold findDuplicates_click. unfold bind at 1, read at 1. rewrite Hnull. reflexivity. }
  split; [exact Hclick |].
  unfold findDuplicates. unfold bind at 1. rewrite Hclick. reflexivity.
Qed.

(** Induction on values, with the property at hand for the elements of an
    array and for the values of an object. *)
Lemma value_induction (P : value -> Prop) :
  P VUndefined ->
  P VNull ->
  (forall b, P (VBool b)) ->
  (forall n, P (VNum n)) ->
  (forall s, P (VStr s)) ->
  (forall elems, Forall P elems -> P (VArr elems)) ->
  (forall props, Forall (fun kv => P (snd kv)) props -> P (VObj props)) ->
  forall v, P v.
Proof.
  intros Hundefined Hnull Hbool Hnum Hstr Harr Hobj.
  exact (fix go (v : value) : P v :=
           match v with
           | VUndefined => Hundefined
           | VNull => Hnull
           | VBool b => Hbool b
           | VNum n => Hnum n
           | VStr s => Hstr s
           | VArr elems =>
               Harr elems
                 ((fix all (l : list value) : Forall P l :=
                     match l with
                     | [] => Forall_nil P
                     | x :: rest => Forall_cons x (go x) (all rest)
                     end) elems)
           | VObj props =>
               Hobj props
                 ((fix all (l : list (string * value))
                     : Forall (fun kv => P (snd kv)) l :=
                     match l with
                     | [] => Forall_nil _
                     | kv :: rest =>
                         Forall_cons (P := fun kv => P (snd kv)) kv (go (snd kv)) (all rest)
                     end) props)
           end).
Qed.

(** A stable value is written by [JSON.stringify] as a text that denotes
    it. *)
Lemma JSON_denoted_stable : forall v : value, json_stable v -> JSON_denoted v = v.
Proof.
  induction v as [| | b | n | s | elems IH | props IH] using value_induction;
    simpl; intros Hstable; try reflexivity.
  - rewrite Hstable. reflexivity.
  - f_equal. induction IH as [| x rest Hx _ IHrest]; [reflexivity |].
    simpl in Hstable |- *. destruct Hstable as [Hhead Hrest].
    rewrite (IHrest Hrest). f_equal.
    destruct x; try contradiction; exact (Hx Hhead).
  - f_equal. induction IH as [| [k x] rest Hx _ IHrest]; [reflexivity |].
    simpl in Hstable, Hx |- *. destruct Hstable as [Hhead Hrest].
    rewrite (IHrest Hrest).
    destruct x; try contradiction; rewrite (Hx Hhead); reflexivity.
Qed.


Lemma stringify_data_column (preview : value) (column : string) :
  exists sent,
    JSON_stringify [("data", preview); ("column", VStr column)] = sent /\
    get sent "data" = Normal (JSON_denoted preview) /\
    get sent "column" = Normal (VStr column).
Proof.
  eexists. split; [reflexivity |]. unfold JSON_stringify.
  destruct preview as [| | b | n | s | elems | props]; split; reflexivity.
Qed.

(** C7, as amended.  With [currentData] set (truthy), a find-duplicates
    click issues one request, a POST to [/data/find_duplicates] with a JSON
    body whose [data] is [currentData.preview] as [JSON.stringify] writes it
    (a non-finite number as [null], negative zero as [0]) and whose [column]
    is the value of the column selector at the click; [data] is
    [currentData.preview] itself whenever the preview holds only numbers
    that JSON writes back as they are. *)
Theorem findDuplicates_request_sent (p : page) :
  truthy (currentData p) = true ->
  exists preview r sent,
    get (currentData p) "preview" = Normal preview /\
    findDuplicates_click p = (Normal (Some r), emit (Fetch r) p) /\
    url r = "/data/find_duplicates" /\
    method r = "POST" /\
    headers r = [("Content-Type", "application/json")] /\
    body r = JSON_text sent /\
    get sent "data" = Normal (JSON_denoted preview) /\
    (json_stable preview -> get sent "data" = Normal preview) /\
    get sent "column" = Normal (VStr (select_value (dupeColumn p))).
Proof.
  intros Hset.
  assert (Hread : exists preview, get (currentData p) "preview" = Normal preview).
  { destruct (currentData p) as [| | b | n | s | elems | props];
      try discriminate; simpl; eauto.
    destruct (lookup "preview" props); eauto. }
  destruct Hread as [preview Hread].
  destruct (stringify_data_column preview (select_value (dupeColumn p)))
    as [sent [Hsent [Hdata Hcolumn]]].
  exists preview, (find_duplicates_request preview (select_value (dupeColumn p))), sent.
  split; [exact Hread |]. split.
  - unfold findDuplicates_click. unfold bind at 1, read at 1. rewrite Hset. simpl negb.
    cbv iota. unfold try_catch. unfold bind at 1, lift at 1. rewrite Hread. reflexivity.
  - split; [reflexivity |]. split; [reflexivity |]. split; [reflexivity |].
    split; [simpl; rewrite Hsent; reflexivity |].
    split; [exact Hdata |]. split; [| exact Hcolumn].
    intros Hstable. rewrite Hdata, (JSON_denoted_stable preview Hstable). reflexivity.
Qed.



(** C10.  On a well-formed upload response whose [preview] is the empty
    sequence, the response is stored in [currentData], the file name, the
    dimensions and the duplicate count are displayed and the selector is
    populated; then rendering the preview throws, having emptied the table.
    The exception is caught, logged, and reported by a notification that
    starts with ["Error processing file: "]; the results section is not
    revealed. *)
Theorem upload_empty_preview (data : value) (name : string) (cols : list string)
    (rows columns duplicates : number) (p : page) :
  UploadResult data name cols rows columns duplicates (VArr []) ->
  let e := TypeError (NullishToObject Undefined) in
  let text := "Error processing file: " ++ message e in
  let p' := snd (uploadFile_settle (JsonResolves data) p) in
  uploadFile_settle (JsonResolves data) p
  = (Normal tt,
     emit (Alert text)
       (emit (ConsoleError "Error:" e)
          (set_previewTable [] (shown data name cols rows columns duplicates p)))) /\
  currentData p' = data /\
  filename p' = name /\
  dimensions p'
  = number_to_string rows ++ " rows × " ++ number_to_string columns ++ " columns" /\
  dupeCount p' = number_to_string duplicates /\
  options (dupeColumn p') = options_of cols /\
  previewTable p' = [] /\
  resultsSection p' = resultsSection p /\
  effects p' = (effects p ++ [ConsoleError "Error:" e; Alert text])%list /\
  prefix "Error processing file: " text = true.
Proof.
  intros Hdata. cbv zeta.
  assert (Hrun : uploadFile_settle (JsonResolves data) p
                 = (Normal tt,
                    emit (Alert ("Error processing file: " ++ message (TypeError (NullishToObject Undefined))))
                      (emit (ConsoleError "Error:" (TypeError (NullishToObject Undefined)))
                         (set_previewTable []
                            (shown data name cols rows columns duplicates p))))).
  { unfold uploadFile_settle, try_catch.
    rewrite (upload_reaches_preview _ _ _ _ _ _ _ _ Hdata).
    unfold bind at 1. rewrite displayPreview_empty. reflexivity. }
  rewrite Hrun. simpl.
  repeat split.
  - rewrite <- app_assoc. reflexivity.
  - destruct (type_error_message (NullishToObject Undefined)); reflexivity.
Qed.

End Properties.

(** ** Further properties of the script *)

Section Further.

Context `{host : Host}.

(** *** Setting a field to what it holds *)

Lemma set_dupeColumn_same (p : page) : set_dupeColumn (dupeColumn p) p = p.
Proof. destruct p; reflexivity. Qed.

Lemma set_previewTable_same (p : page) : set_previewTable (previewTable p) p = p.
Proof. destruct p; reflexivity. Qed.

(** *** Conversions *)

(** The only exception a string conversion raises is the [TypeError] of an
    object without a primitive value. *)
Lemma ToString_throws : forall (v : value) (e : exn),
  ToString v = Throw e -> e = TypeError NoPrimitiveValue.
Proof.
  induction v as [| | b | n | s | elems IH | props _] using value_induction;
    intros e; simpl; try discriminate; try (destruct b; discriminate).
  - revert e. induction IH as [| x rest Hx _ IHrest]; intros e; [discriminate |].
    assert (Hx' : forall e',
               match x with
               | VUndefined | VNull => Normal ""
               | _ => ToString x
               end = Throw e' -> e' = TypeError NoPrimitiveValue).
    { intros e' He'. destruct x; try discriminate He'; apply (Hx _ He'). }
    destruct (match x with
              | VUndefined | VNull => Normal ""
              | _ => ToString x
              end) as [s | e'].
    + match goal with
      | |- context [match ?join rest with Normal _ => _ | Throw _ => _ end] =>
          destruct (join rest) as [r | e'']
      end.
      * destruct rest; discriminate.
      * destruct rest; [discriminate |].
        intros He. injection He as <-. apply IHrest. reflexivity.
    + intros He. injection He as <-. apply Hx'. reflexivity.
  - destruct (has_key "toString" props); intros He; [| discriminate].
    injection He as <-. reflexivity.
Qed.

Lemma text_of_throws (v : value) (e : exn) :
  text_of v = Throw e -> e = TypeError NoPrimitiveValue.
Proof.
  intros Hthrow. destruct v; try discriminate Hthrow; exact (ToString_throws _ _ Hthrow).
Qed.

(** A value that can be put in a cell can be converted to a string. *)
Lemma renders_ToString (v : value) :
  renders v = true -> ToString v = Normal (string_of v).
Proof.
  unfold renders, string_of.
  destruct v as [| | b | n | s | elems | props]; try reflexivity;
    unfold text_of; destruct (ToString _); try reflexivity; discriminate.
Qed.

(** *** Outcomes of displayPreview *)

Lemma row_loop_outcome (values : list value) :
  forall cells : tr,
  exists c,
    (forall q : page,
        forEach_into
          (fun tr value => t <- lift (text_of value) ;; ret (tr ++ [Td t])%list)
          values cells q
        = (c, q)) /\
    match c with
    | Normal row => exists new, row = (cells ++ new)%list /\ Forall2 cell_of values new
    | Throw e => e = TypeError NoPrimitiveValue
    end.
Proof.
  induction values as [| v values IH]; intros cells; simpl.
  - exists (Normal cells). split; [reflexivity |].
    exists []. rewrite app_nil_r. split; [reflexivity | constructor].
  - destruct (text_of v) as [t | e] eqn:Et.
    + destruct (IH (cells ++ [Td t])%list) as [c [Hrun Hc]].
      exists c. split.
      * intros q. unfold bind at 1, bind at 1, lift at 1. apply Hrun.
      * destruct c as [row | e]; [| exact Hc].
        destruct Hc as [new [Hrow Hnew]]. exists (Td t :: new). split.
        -- rewrite Hrow, <- app_assoc. reflexivity.
        -- constructor; [exists t; split; [exact Et | reflexivity] | exact Hnew].
    + exists (Throw e). split.
      * intros q. unfold bind at 1, bind at 1, lift at 1. reflexivity.
      * exact (text_of_throws v e Et).
Qed.

Lemma body_loop_outcome (rows : list value) :
  forall tbody : list tr,
  exists c,
    (forall q : page,
        forEach_into
          (fun tbody row =>
             values <- lift (Object_values row) ;;
             tr <- forEach_into
                     (fun tr value => t <- lift (text_of value) ;; ret (tr ++ [Td t])%list)
                     values [] ;;
             ret (tbody ++ [tr])%list)
          rows tbody q
        = (c, q)) /\
    match c with
    | Normal body => exists new, body = (tbody ++ new)%list /\ Forall2 row_of rows new
    | Throw e => exists f, e = TypeError f
    end.
Proof.
  induction rows as [| row rows IH]; intros tbody; simpl.
  - exists (Normal tbody). split; [reflexivity |].
    exists []. rewrite app_nil_r. split; [reflexivity | constructor].
  - destruct (Object_values row) as [values | e] eqn:Evalues.
    + destruct (row_loop_outcome values []) as [[cells | e] [Hrow Hcells]].
      * destruct Hcells as [new [Hnew Hall]]. simpl in Hnew. subst new.
        destruct (IH (tbody ++ [cells])%list) as [c [Hrun Hc]].
        exists c. split.
        -- intros q. unfold bind at 1, bind at 1, lift at 1.
           unfold bind at 1. rewrite Hrow. apply Hrun.
        -- destruct c as [body | e]; [| exact Hc].
           destruct Hc as [new [Hbody Hnew]]. exists (cells :: new). split.
           ++ rewrite Hbody, <- app_assoc. reflexivity.
           ++ constructor; [exists values; split; assumption | exact Hnew].
      * exists (Throw e). split.
        -- intros q. unfold bind at 1, bind at 1, lift at 1.
           unfold bind at 1. rewrite Hrow. reflexivity.
        -- exists NoPrimitiveValue. exact Hcells.
    + exists (Throw e). split.
      * intros q. unfold bind at 1, bind at 1, lift at 1. reflexivity.
      * destruct row; try discriminate Evalues;
          injection Evalues as <-; eexists; reflexivity.
Qed.

(** The three ways [displayPreview] can end: before the header is in the
    table, with the header alone, or with header and body. *)
Lemma displayPreview_cases (v : value) :
  (exists f, forall p,
      displayPreview v p = (Throw (TypeError f), set_previewTable [] p)) \/
  (exists f keys, forall p,
      displayPreview v p = (Throw (TypeError f), set_previewTable [Thead [map Th keys]] p)) \/
  (exists first rest keys body,
      v = VArr (first :: rest) /\
      Object_keys first = Normal keys /\
      Forall2 row_of (first :: rest) body /\
      forall p,
        displayPreview v p
        = (Normal tt, set_previewTable [Thead [map Th keys]; Tbody body] p)).
Proof.
  unfold displayPreview.
  destruct (get0 v) as [first | e] eqn:Efirst.
  2:{ left. destruct v as [| | b | n | s | [| x elems] | props]; simpl in Efirst;
        try discriminate Efirst;
        try (destruct (code_units s); discriminate Efirst);
        try (destruct (lookup "0" props); discriminate Efirst);
        injection Efirst as <-; eexists; intros p;
        unfold bind at 1, modify at 1; unfold bind at 1, lift at 1; reflexivity. }
  destruct (Object_keys first) as [keys | e] eqn:Ekeys.
  2:{ left. assert (He : exists f, e = TypeError f).
      { destruct first; try discriminate Ekeys; injection Ekeys as <-; eexists; reflexivity. }
      destruct He as [f ->]. exists f. intros p.
      unfold bind at 1, modify at 1. unfold bind at 1, lift at 1.
      unfold bind at 1, lift at 1. rewrite Ekeys. reflexivity. }
  right.
  assert (Hhead : forall (k : unit -> M page unit) p,
             (modify (set_previewTable []) ;;
              first <- lift (Normal first) ;;
              keys <- lift (Object_keys first) ;;
              headerRow <- forEach_into
                             (fun headerRow col => ret (headerRow ++ [Th col])%list)
                             keys [] ;;
              p0 <- read ;;
              modify (set_previewTable (previewTable p0 ++ [Thead [headerRow]])) ;;
              k tt) p
             = k tt (set_previewTable [Thead [map Th keys]] p)).
  { intros k p. unfold bind at 1, modify at 1. unfold bind at 1, lift at 1.
    unfold bind at 1, lift at 1. rewrite Ekeys.
    unfold bind at 1. rewrite forEach_into_ret.
    unfold bind at 1, read at 1. unfold bind at 1, modify at 1. reflexivity. }
  destruct (forEach_of v "previewData.forEach") as [rows | e] eqn:Erows.
  2:{ left. assert (He : exists f, e = TypeError f).
      { destruct v; try discriminate Erows; injection Erows as <-; eexists; reflexivity. }
      destruct He as [f ->]. exists f, keys. intros p.
      rewrite (Hhead (fun _ =>
                        rows <- lift (Throw (TypeError f)) ;;
                        tbody <- forEach_into
                                   (fun tbody row =>
                                      values <- lift (Object_values row) ;;
                                      tr <- forEach_into
                                              (fun tr value =>
                                                 t <- lift (text_of value) ;;
                                                 ret (tr ++ [Td t])%list)
                                              values [] ;;
                                      ret (tbody ++ [tr])%list)
                                   rows [] ;;
                        p0 <- read ;;
                        modify (set_previewTable (previewTable p0 ++ [Tbody tbody])))).
      reflexivity. }
  assert (Hv : v = VArr rows).
  { destruct v; try discriminate Erows. injection Erows as <-. reflexivity. }
  destruct (body_loop_outcome rows []) as [[body | e] [Hloop Hbody]].
  - right. destruct Hbody as [new [Hnew Hall]]. simpl in Hnew. subst new.
    destruct rows as [| x rest].
    { subst v. simpl in Efirst. injection Efirst as <-. discriminate Ekeys. }
    assert (x = first) by (subst v; simpl in Efirst; congruence). subst x.
    exists first, rest, keys, body. repeat split; try assumption.
    intros p.
    rewrite (Hhead (fun _ =>
                      rows <- lift (Normal (first :: rest)) ;;
                      tbody <- forEach_into
                                 (fun tbody row =>
                                    values <- lift (Object_values row) ;;
                                    tr <- forEach_into
                                            (fun tr value =>
                                               t <- lift (text_of value) ;;
                                               ret (tr ++ [Td t])%list)
                                            values [] ;;
                                    ret (tbody ++ [tr])%list)
                                 rows [] ;;
                      p0 <- read ;;
                      modify (set_previewTable (previewTable p0 ++ [Tbody tbody])))).
    unfold bind at 1, lift at 1. unfold bind at 1. rewrite Hloop. reflexivity.
  - left. destruct Hbody as [f ->]. exists f, keys. intros p.
    rewrite (Hhead (fun _ =>
                      rows <- lift (Normal rows) ;;
                      tbody <- forEach_into
                                 (fun tbody row =>
                                    values <- lift (Object_values row) ;;
                                    tr <- forEach_into
                                            (fun tr value =>
                                               t <- lift (text_of value) ;;
                                               ret (tr ++ [Td t])%list)
                                            values [] ;;
                                    ret (tbody ++ [tr])%list)
                                 rows [] ;;
                      p0 <- read ;;
                      modify (set_previewTable (previewTable p0 ++ [Tbody tbody])))).
    unfold bind at 1, lift at 1. unfold bind at 1. rewrite Hloop. reflexivity.
Qed.

(** *** What displayFileInfo writes *)

(** Case analysis on the evaluations a handler makes, in program order. *)
Ltac evaluate :=
  repeat (cbn beta iota delta [bind lift modify ret read throw fst snd];
          match goal with
          | |- context [match ?c with Normal _ => _ | Throw _ => _ end] =>
              lazymatch c with
              | Normal _ => fail
              | Throw _ => fail
              | _ => destruct c eqn:?
              end
          end).

(** Pages written out field by field. *)
Ltac fields :=
  unfold set_currentData, set_filename, set_dimensions, set_dupeCount,
    set_dupeColumn, set_previewTable, set_resultsSection, emit;
  simpl.

Lemma stats_read_throws (stats : value) (name : string) (e : exn) :
  get stats name = Throw e -> exists base, e = TypeError (ReadOfNullish base name).
Proof.
  destruct stats as [| | b | n | s | elems | props]; simpl; try discriminate;
    try (intros H; injection H as <-; eexists; reflexivity).
  destruct (lookup name props); discriminate.
Qed.

Lemma displayFileInfo_footprint (data : value) (p : page) :
  exists c f d k,
    displayFileInfo data p = (c, set_dupeCount k (set_dimensions d (set_filename f p))) /\
    match c with
    | Normal _ => True
    | Throw e => exists fl, e = TypeError fl
    end.
Proof.
  destruct p as [cd files fn dm dc sel table rs log].
  unfold displayFileInfo. evaluate;
    repeat match goal with
           | H : get _ _ = Throw _ |- _ => apply stats_read_throws in H; destruct H as [? H]
           | H : ToString _ = Throw _ |- _ => apply ToString_throws in H
           | H : text_of _ = Throw _ |- _ => apply text_of_throws in H
           end; subst;
    cbn beta iota delta [bind lift modify ret read throw fst snd];
    eexists; eexists; eexists; eexists;
    (split; [fields; reflexivity | try exact I; eexists; reflexivity]).
Qed.

(** *** Outcomes of populateColumnSelect *)

Lemma options_fold_values (cols : list value) :
  forall sel,
    options (fold_left add_option_of cols sel)
    = (options sel ++ map option_of cols)%list.
Proof.
  induction cols as [| col cols IH]; intros sel; simpl.
  - rewrite app_nil_r. reflexivity.
  - rewrite IH. simpl. rewrite <- app_assoc. reflexivity.
Qed.

Lemma ToString_throws_not_shown (v : value) (e : exn) :
  ToString v = Throw e -> renders v = false.
Proof.
  intros Hthrow. unfold renders.
  destruct v as [| | b | n | s | elems | props]; try discriminate Hthrow;
    unfold text_of; rewrite Hthrow; reflexivity.
Qed.

(** The loop of [populateColumnSelect] appends the options of the entries
    up to the first one that cannot be converted, and stops there. *)
Lemma populate_loop_outcome (cols : list value) :
  forall sel : select_el,
  exists c done rest,
    cols = (done ++ rest)%list /\
    Forall (fun col => renders col = true) done /\
    (forall p,
        forEach (fun col =>
                   v <- lift (ToString col) ;;
                   t <- lift (text_of col) ;;
                   let option := {| opt_value := v; opt_text := t |} in
                   q <- read ;;
                   modify (set_dupeColumn (select_append option (dupeColumn q))))
                cols (set_dupeColumn sel p)
        = (c, set_dupeColumn (fold_left add_option_of done sel) p)) /\
    match c with
    | Normal _ => rest = []
    | Throw e =>
        e = TypeError NoPrimitiveValue /\
        exists faulty rest', rest = faulty :: rest' /\ renders faulty = false
    end.
Proof.
  induction cols as [| col cols IH]; intros sel.
  - exists (Normal tt), [], []. repeat split. constructor.
  - simpl forEach.
    destruct (ToString col) as [v | e] eqn:Ev.
    + destruct (text_of col) as [t | e] eqn:Et.
      * destruct (IH (add_option_of sel col)) as [c [done [rest [Hcols [Hdone [Hrun Hc]]]]]].
        exists c, (col :: done), rest. split; [rewrite Hcols; reflexivity |].
        split; [constructor; [unfold renders; rewrite Et; reflexivity | exact Hdone] |].
        split; [| exact Hc]. intros p.
        unfold bind at 1. unfold bind at 1, lift at 1.
        unfold bind at 1, lift at 1.
        unfold bind at 1, read at 1. unfold modify at 1.
        assert (Hoption : {| opt_value := v; opt_text := t |} = option_of col).
        { unfold option_of, string_of, cell_text. rewrite Ev, Et. reflexivity. }
        rewrite Hoption. exact (Hrun p).
      * exists (Throw e), [], (col :: cols). split; [reflexivity |].
        split; [constructor |]. split.
        -- intros p. unfold bind at 1. unfold bind at 1, lift at 1.
           unfold bind at 1, lift at 1. reflexivity.
        -- split; [exact (text_of_throws col e Et) |].
           exists col, cols. split; [reflexivity |].
           unfold renders. rewrite Et. reflexivity.
    + exists (Throw e), [], (col :: cols). split; [reflexivity |].
      split; [constructor |]. split.
      * intros p. unfold bind at 1. unfold bind at 1, lift at 1. reflexivity.
      * split; [exact (ToString_throws col e Ev) |].
        exists col, cols. split; [reflexivity |].
        exact (ToString_throws_not_shown col e Ev).
Qed.

Lemma populateColumnSelect_outcome (columns : value) :
  exists c done,
    (forall p,
        populateColumnSelect columns p
        = (c, set_dupeColumn
                (fold_left add_option_of done {| options := []; selectedIndex := None |}) p)) /\
    Forall (fun col => renders col = true) done /\
    match c with
    | Normal _ => columns = VArr done
    | Throw e =>
        (exists f, e = TypeError f) /\
        (forall cols, columns = VArr cols ->
           exists faulty rest,
             cols = (done ++ faulty :: rest)%list /\ renders faulty = false) /\
        ((forall cols, columns <> VArr cols) -> done = [])
    end.
Proof.
  unfold populateColumnSelect.
  destruct (forEach_of columns "columns.forEach") as [cols | e] eqn:Ecols.
  - assert (Hcolumns : columns = VArr cols).
    { destruct columns; try discriminate Ecols. injection Ecols as <-. reflexivity. }
    destruct (populate_loop_outcome cols {| options := []; selectedIndex := None |})
      as [c [done [rest [Hcols [Hdone [Hrun Hc]]]]]].
    exists c, done. split; [| split; [exact Hdone |]].
    + intros p. unfold bind at 1, modify at 1. unfold bind at 1, lift at 1.
      exact (Hrun p).
    + destruct c as [[] | e].
      * subst rest. rewrite app_nil_r in Hcols. congruence.
      * destruct Hc as [-> [faulty [rest' [Hrest Hfaulty]]]].
        split; [eexists; reflexivity |]. split.
        -- intros cols' Hcols'. exists faulty, rest'.
           split; [congruence | exact Hfaulty].
        -- intros Hnot. exfalso. exact (Hnot cols Hcolumns).
  - exists (Throw e), []. split; [| split; [constructor |]].
    + intros p. unfold bind at 1, modify at 1. unfold bind at 1, lift at 1. reflexivity.
    + split; [| split].
      * destruct columns; try discriminate Ecols; injection Ecols as <-; eexists; reflexivity.
      * intros cols Hcols. subst columns. discriminate Ecols.
      * reflexivity.
Qed.

(** *** Outcomes of the two handlers *)

(** The [try] block of [uploadFile] either throws with the page untouched
    (the response is refused), or stores the response and then writes, as
    far as it gets, the file information, the selector and the table; the
    results section is set when, and only when, it completes. *)
Lemma uploadFile_try_cases (o : fetch_outcome) (p : page) :
  (refused o = true /\ exists e, uploadFile_try o p = (Throw e, p)) \/
  (exists data f d k sel t c,
      o = JsonResolves data /\
      accepted data = true /\
      uploadFile_try o p
      = (c,
         match c with
         | Normal _ => set_resultsSection "block"
         | Throw _ => fun q => q
         end
           (set_previewTable t
              (set_dupeColumn sel
                 (set_dupeCount k
                    (set_dimensions d
                       (set_filename f (set_currentData data p))))))) /\
      match c with
      | Normal _ => True
      | Throw e => exists fl, e = TypeError fl
      end).
Proof.
  destruct o as [r | r | data].
  - left. split; [reflexivity |]. exists r. reflexivity.
  - left. split; [reflexivity |]. exists r. reflexivity.
  - destruct (get data "error") as [error | e] eqn:Eerror.
    2:{ left. split; [unfold refused, accepted; rewrite Eerror; reflexivity |].
        exists e. unfold uploadFile_try, await_json.
        unfold bind at 1, ret at 1. unfold bind at 1, lift at 1. rewrite Eerror.
        reflexivity. }
    destruct (truthy error) eqn:Etruthy.
    { left. split; [unfold refused, accepted; rewrite Eerror, Etruthy; reflexivity |].
      destruct (error_check_throws data error p
                  (modify (set_currentData data) ;;
                   displayFileInfo data ;;
                   columns <- lift (get data "columns") ;;
                   populateColumnSelect columns ;;
                   preview <- lift (get data "preview") ;;
                   displayPreview preview ;;
                   modify (set_resultsSection "block")) Eerror Etruthy) as [e [Hrun _]].
      exists e. unfold uploadFile_try, await_json. unfold bind at 1, ret at 1.
      exact Hrun. }
    right.
    assert (Haccepted : accepted data = true).
    { unfold accepted. rewrite Eerror, Etruthy. reflexivity. }
    unfold uploadFile_try, await_json.
    unfold bind at 1, ret at 1. unfold bind at 1, lift at 1. rewrite Eerror.
    unfold bind at 1. rewrite Etruthy. unfold ret at 1.
    unfold bind at 1, modify at 1. unfold bind at 1.
    destruct (displayFileInfo_footprint data (set_currentData data p))
      as [c1 [f [d [k [Hinfo Hc1]]]]].
    rewrite Hinfo. destruct c1 as [[] | e1].
    2:{ exists data, f, d, k, (dupeColumn p), (previewTable p), (Throw e1).
        repeat split; try assumption; try (destruct p; reflexivity). }
    unfold bind at 1, lift at 1.
    destruct (get data "columns") as [columns | e2] eqn:Ecolumns.
    2:{ exists data, f, d, k, (dupeColumn p), (previewTable p), (Throw e2).
        repeat split; try assumption; try (destruct p; reflexivity).
        destruct (stats_read_throws _ _ _ Ecolumns) as [base ->]. eexists. reflexivity. }
    unfold bind at 1.
    destruct (populateColumnSelect_outcome columns) as [c2 [done [Hpopulate [_ Hc2]]]].
    rewrite Hpopulate. destruct c2 as [[] | e2].
    2:{ exists data, f, d, k,
          (fold_left add_option_of done {| options := []; selectedIndex := None |}),
          (previewTable p), (Throw e2).
        repeat split; try assumption; try (destruct p; reflexivity). exact (proj1 Hc2). }
    unfold bind at 1, lift at 1.
    destruct (get data "preview") as [preview | e3] eqn:Epreview.
    2:{ exists data, f, d, k,
          (fold_left add_option_of done {| options := []; selectedIndex := None |}),
          (previewTable p), (Throw e3).
        repeat split; try assumption; try (destruct p; reflexivity).
        destruct (stats_read_throws _ _ _ Epreview) as [base ->]. eexists. reflexivity. }
    unfold bind at 1.
    destruct (displayPreview_cases preview)
      as [[fl Hrender] | [[fl [keys Hrender]] | [first [rest [keys [body [_ [_ [_ Hrender]]]]]]]]];
      rewrite Hrender.
    + exists data, f, d, k,
        (fold_left add_option_of done {| options := []; selectedIndex := None |}),
        [], (Throw (TypeError fl)).
      repeat split; try assumption. exists fl. reflexivity.
    + exists data, f, d, k,
        (fold_left add_option_of done {| options := []; selectedIndex := None |}),
        [Thead [map Th keys]], (Throw (TypeError fl)).
      repeat split; try assumption. exists fl. reflexivity.
    + exists data, f, d, k,
        (fold_left add_option_of done {| options := []; selectedIndex := None |}),
        [Thead [map Th keys]; Tbody body], (Normal tt).
      repeat split; assumption.
Qed.

(** The [try] block of [findDuplicates] either throws with the page
    untouched, or announces the count and then writes the table only. *)
Lemma findDuplicates_try_cases (o : fetch_outcome) (p : page) :
  (exists e, findDuplicates_try o p = (Throw e, p)) \/
  (exists data n t c,
      o = JsonResolves data /\
      accepted data = true /\
      findDuplicates_try o p
      = (c, set_previewTable t (emit (Alert ("Found " ++ n ++ " duplicate entries")) p))).
Proof.
  destruct o as [r | r | data].
  - left. exists r. reflexivity.
  - left. exists r. reflexivity.
  - destruct (get data "error") as [error | e] eqn:Eerror.
    2:{ left. exists e. unfold findDuplicates_try, await_json.
        unfold bind at 1, ret at 1. unfold bind at 1, lift at 1. rewrite Eerror.
        reflexivity. }
    destruct (truthy error) eqn:Etruthy.
    { left.
      destruct (error_check_throws data error p
                  (count <- lift (get data "count") ;;
                   count_text <- lift (ToString count) ;;
                   alert ("Found " ++ count_text ++ " duplicate entries") ;;
                   duplicates <- lift (get data "duplicates") ;;
                   displayPreview duplicates) Eerror Etruthy) as [e [Hrun _]].
      exists e. unfold findDuplicates_try, await_json. unfold bind at 1, ret at 1.
      exact Hrun. }
    assert (Haccepted : accepted data = true).
    { unfold accepted. rewrite Eerror, Etruthy. reflexivity. }
    destruct (get data "count") as [count | e] eqn:Ecount.
    2:{ left. exists e. unfold findDuplicates_try, await_json.
        unfold bind at 1, ret at 1. unfold bind at 1, lift at 1. rewrite Eerror.
        unfold bind at 1. rewrite Etruthy. unfold ret at 1.
        unfold bind at 1, lift at 1. rewrite Ecount. reflexivity. }
    destruct (ToString count) as [n | e] eqn:En.
    2:{ left. exists e. unfold findDuplicates_try, await_json.
        unfold bind at 1, ret at 1. unfold bind at 1, lift at 1. rewrite Eerror.
        unfold bind at 1. rewrite Etruthy. unfold ret at 1.
        unfold bind at 1, lift at 1. rewrite Ecount.
        unfold bind at 1, lift at 1. rewrite En. reflexivity. }
    right.
    destruct (get data "duplicates") as [duplicates | e] eqn:Eduplicates.
    + destruct (displayPreview_only_table duplicates) as [c [t Hrender]].
      exists data, n, t, c. split; [reflexivity |]. split; [exact Haccepted |].
      unfold findDuplicates_try, await_json.
      unfold bind at 1, ret at 1. unfold bind at 1, lift at 1. rewrite Eerror.
      unfold bind at 1. rewrite Etruthy. unfold ret at 1.
      unfold bind at 1, lift at 1. rewrite Ecount.
      unfold bind at 1, lift at 1. rewrite En.
      unfold bind at 1, alert at 1, modify at 1.
      unfold bind at 1, lift at 1. rewrite Eduplicates.
      apply Hrender.
    + exists data, n, (previewTable p), (Throw e).
      split; [reflexivity |]. split; [exact Haccepted |].
      unfold findDuplicates_try, await_json.
      unfold bind at 1, ret at 1. unfold bind at 1, lift at 1. rewrite Eerror.
      unfold bind at 1. rewrite Etruthy. unfold ret at 1.
      unfold bind at 1, lift at 1. rewrite Ecount.
      unfold bind at 1, lift at 1. rewrite En.
      unfold bind at 1, alert at 1, modify at 1.
      unfold bind at 1, lift at 1. rewrite Eduplicates.
      destruct p; reflexivity.
Qed.

Lemma findDuplicates_click_cases (p : page) :
  (truthy (currentData p) = false /\ findDuplicates_click p = (Normal None, p)) \/
  (exists preview,
      truthy (currentData p) = true /\
      get (currentData p) "preview" = Normal preview /\
      findDuplicates_click p
      = (Normal (Some (find_duplicates_request preview (select_value (dupeColumn p)))),
         emit (Fetch (find_duplicates_request preview (select_value (dupeColumn p)))) p)).
Proof.
  destruct (truthy (currentData p)) eqn:Eset.
  - right.
    assert (Hread : exists preview, get (currentData p) "preview" = Normal preview).
    { destruct (currentData p) as [| | b | n | s | elems | props];
        try discriminate; simpl; eauto.
      destruct (lookup "preview" props); eauto. }
    destruct Hread as [preview Hread]. exists preview.
    split; [reflexivity |]. split; [exact Hread |].
    unfold findDuplicates_click. unfold bind at 1, read at 1. rewrite Eset.
    simpl negb. cbv iota. unfold try_catch. unfold bind at 1, lift at 1.
    rewrite Hread. reflexivity.
  - left. split; [reflexivity |].
    unfold findDuplicates_click. unfold bind at 1, read at 1. rewrite Eset.
    reflexivity.
Qed.


(** *** Rendering helpers *)

(** X1.  Whatever [displayPreview] is given and however it ends, it writes
    the preview table and nothing else, and emits no effect; whether it
    throws, and the table it leaves, depend on its argument alone (never on
    what the table or the page held). *)
Theorem displayPreview_writes_table_only (v : value) (p q : page) :
  let p' := snd (displayPreview v p) in
  currentData p' = currentData p /\
  fileInput p' = fileInput p /\
  filename p' = filename p /\
  dimensions p' = dimensions p /\
  dupeCount p' = dupeCount p /\
  dupeColumn p' = dupeColumn p /\
  resultsSection p' = resultsSection p /\
  effects p' = effects p /\
  fst (displayPreview v p) = fst (displayPreview v q) /\
  previewTable p' = previewTable (snd (displayPreview v q)).
Proof.
  cbv zeta. destruct (displayPreview_only_table v) as [c [t Hrun]].
  rewrite !Hrun. repeat split.
Qed.

(** X2.  When [displayPreview] throws, the exception is a [TypeError] and
    the table holds no body: it is empty, or holds just the header row that
    was built before the fault. *)
Theorem displayPreview_fault_leaves_no_body (v : value) (p : page) (e : exn) :
  fst (displayPreview v p) = Throw e ->
  (exists f, e = TypeError f) /\
  (previewTable (snd (displayPreview v p)) = [] \/
   exists keys, previewTable (snd (displayPreview v p)) = [Thead [map Th keys]]).
Proof.
  intros Hthrow.
  destruct (displayPreview_cases v)
    as [[f Hrun] | [[f [keys Hrun]] | [first [rest [keys [body [_ [_ [_ Hrun]]]]]]]]];
    rewrite Hrun in Hthrow |- *; simpl in Hthrow |- *.
  - injection Hthrow as <-. split; [exists f; reflexivity | left; reflexivity].
  - injection Hthrow as <-. split; [exists f; reflexivity | right; exists keys; reflexivity].
  - discriminate Hthrow.
Qed.

(** X3.  [displayPreview] completes only on a non-empty array whose first
    element has keys to read; the table then holds exactly a header with
    the first element's keys and a body with one row per element, each row
    having one cell per value of its element ([Object.values]) with the
    value's text.  Elements need not be records: an array or a string is
    rendered by its items or characters. *)
Theorem displayPreview_completes_on (v : value) (p : page) :
  fst (displayPreview v p) = Normal tt ->
  exists first rest keys body,
    v = VArr (first :: rest) /\
    Object_keys first = Normal keys /\
    previewTable (snd (displayPreview v p)) = [Thead [map Th keys]; Tbody body] /\
    Forall2 row_of (first :: rest) body /\
    List.length body = List.length (first :: rest).
Proof.
  intros Hdone.
  destruct (displayPreview_cases v)
    as [[f Hrun] | [[f [keys Hrun]] | [first [rest [keys [body [Hv [Hkeys [Hrows Hrun]]]]]]]]];
    rewrite Hrun in Hdone |- *; simpl in Hdone |- *; try discriminate Hdone.
  exists first, rest, keys, body. repeat split; try assumption.
  symmetry. exact (Forall2_length Hrows).
Qed.

(** X4.  Whatever [displayFileInfo] is given and however it ends, it writes
    the three text elements ([filename], [dimensions], [dupeCount]) and
    nothing else, and emits no effect; if it throws, the exception is a
    [TypeError]. *)
Theorem displayFileInfo_writes_texts_only (data : value) (p : page) :
  let p' := snd (displayFileInfo data p) in
  currentData p' = currentData p /\
  fileInput p' = fileInput p /\
  dupeColumn p' = dupeColumn p /\
  previewTable p' = previewTable p /\
  resultsSection p' = resultsSection p /\
  effects p' = effects p /\
  (forall e, fst (displayFileInfo data p) = Throw e -> exists f, e = TypeError f).
Proof.
  cbv zeta. destruct (displayFileInfo_footprint data p) as [c [f [d [k [Hrun Hc]]]]].
  rewrite Hrun. simpl. repeat split.
  intros e He. subst c. exact Hc.
Qed.

(** X5.  A response without [stats] (absent or [null]): [displayFileInfo]
    shows the file name, then throws the [TypeError] of reading [rows] of
    [undefined], or of [null]; the dimensions and the duplicate count keep
    what they showed before. *)
Theorem displayFileInfo_without_stats (data name : value) (base : nullish)
    (t : string) (p : page) :
  get data "filename" = Normal name ->
  text_of name = Normal t ->
  get data "stats" = Normal (nullish_value base) ->
  displayFileInfo data p
  = (Throw (TypeError (ReadOfNullish base "rows")), set_filename t p) /\
  dimensions (snd (displayFileInfo data p)) = dimensions p /\
  dupeCount (snd (displayFileInfo data p)) = dupeCount p.
Proof.
  intros Hname Ht Hstats.
  assert (Hrun : displayFileInfo data p
                 = (Throw (TypeError (ReadOfNullish base "rows")), set_filename t p)).
  { unfold displayFileInfo.
    unfold bind at 1, lift at 1. rewrite Hname.
    unfold bind at 1, lift at 1. rewrite Ht.
    unfold bind at 1, modify at 1.
    unfold bind at 1, lift at 1. rewrite Hstats.
    unfold bind at 1, lift at 1.
    destruct base; reflexivity. }
  rewrite Hrun. repeat split.
Qed.

(** X6.  With a [stats] object at hand, [displayFileInfo] completes when the
    four values convert: the file name and the duplicate count are shown as
    text content (empty for [null] or an absent value), the dimensions as
    ["<rows> rows × <columns> columns"] with [String] of each stat, so that
    an absent [rows] reads ["undefined rows"]. *)
Theorem displayFileInfo_shows (data name stats rows columns duplicates : value) (p : page) :
  get data "filename" = Normal name ->
  get data "stats" = Normal stats ->
  get stats "rows" = Normal rows ->
  get stats "columns" = Normal columns ->
  get stats "duplicates" = Normal duplicates ->
  renders name = true ->
  renders rows = true ->
  renders columns = true ->
  renders duplicates = true ->
  displayFileInfo data p
  = (Normal tt,
     set_dupeCount (cell_text duplicates)
       (set_dimensions (string_of rows ++ " rows × " ++ string_of columns ++ " columns")
          (set_filename (cell_text name) p))).
Proof.
  intros Hname Hstats Hrows Hcolumns Hduplicates Rname Rrows Rcolumns Rduplicates.
  unfold displayFileInfo.
  unfold bind at 1, lift at 1. rewrite Hname.
  unfold bind at 1, lift at 1. rewrite (text_of_renders name Rname).
  unfold bind at 1, modify at 1.
  unfold bind at 1, lift at 1. rewrite Hstats.
  unfold bind at 1, lift at 1. rewrite Hrows.
  unfold bind at 1, lift at 1. rewrite (renders_ToString rows Rrows).
  unfold bind at 1, lift at 1.
  unfold bind at 1, lift at 1. rewrite Hcolumns.
  unfold bind at 1, lift at 1. rewrite (renders_ToString columns Rcolumns).
  unfold bind at 1, modify at 1.
  unfold bind at 1, lift at 1.
  unfold bind at 1, lift at 1. rewrite Hduplicates.
  unfold bind at 1, lift at 1. rewrite (text_of_renders duplicates Rduplicates).
  reflexivity.
Qed.


(** X8.  When [populateColumnSelect] throws, the exception is a
    [TypeError], the previous options are gone, and the selector holds the
    options of exactly the entries that precede the first entry that cannot
    be converted to a string, each with its [String] as value: none at all
    when [columns] is not an array.  Nothing but the selector is written. *)
Theorem populateColumnSelect_fault (columns : value) (p : page) (e : exn) :
  fst (populateColumnSelect columns p) = Throw e ->
  let p' := snd (populateColumnSelect columns p) in
  (exists f, e = TypeError f) /\
  (exists done,
      options (dupeColumn p') = map option_of done /\
      Forall (fun col => renders col = true) done /\
      (forall col, In col done -> ToString col = Normal (opt_value (option_of col))) /\
      (forall cols, columns = VArr cols ->
         exists faulty rest,
           cols = (done ++ faulty :: rest)%list /\ renders faulty = false) /\
      ((forall cols, columns <> VArr cols) -> done = [])) /\
  set_dupeColumn (dupeColumn p) p' = p.
Proof.
  intros Hthrow. cbv zeta.
  destruct (populateColumnSelect_outcome columns) as [c [done [Hrun [Hdone Hc]]]].
  rewrite Hrun in Hthrow |- *. simpl in Hthrow. subst c.
  destruct Hc as [He [Hprefix Hnone]]. simpl snd.
  split; [exact He |]. split.
  - exists done. split; [simpl; rewrite options_fold_values; reflexivity |].
    split; [exact Hdone |]. split; [| split; assumption].
    intros col Hin. rewrite Forall_forall in Hdone.
    exact (renders_ToString col (Hdone col Hin)).
  - destruct p; reflexivity.
Qed.

(** *** uploadFile *)

Lemma uploadFile_settle_completes (o : fetch_outcome) (p : page) :
  fst (uploadFile_settle o p) = Normal tt.
Proof.
  unfold uploadFile_settle, try_catch.
  destruct (uploadFile_try o p) as [[[] | e] q]; reflexivity.
Qed.

Lemma findDuplicates_settle_completes (o : fetch_outcome) (p : page) :
  fst (findDuplicates_settle o p) = Normal tt.
Proof.
  unfold findDuplicates_settle, try_catch.
  destruct (findDuplicates_try o p) as [[[] | e] q]; reflexivity.
Qed.

(** X9.  No exception escapes a handler: whatever the page holds and however
    the request settles, [uploadFile] and [findDuplicates] complete, on the
    click and when the request settles. *)
Theorem handlers_never_throw (o : fetch_outcome) (p : page) :
  (exists pending, fst (uploadFile_click p) = Normal pending) /\
  fst (uploadFile_settle o p) = Normal tt /\
  fst (uploadFile o p) = Normal tt /\
  (exists pending, fst (findDuplicates_click p) = Normal pending) /\
  fst (findDuplicates_settle o p) = Normal tt /\
  fst (findDuplicates o p) = Normal tt.
Proof.
  assert (Hupload : exists pending q, uploadFile_click p = (Normal pending, q)).
  { unfold uploadFile_click. unfold bind at 1, read at 1.
    destruct (fileInput p); eexists; eexists; reflexivity. }
  assert (Hfind : exists pending q, findDuplicates_click p = (Normal pending, q)).
  { destruct (findDuplicates_click_cases p) as [[_ Hrun] | [preview [_ [_ Hrun]]]];
      rewrite Hrun; eexists; eexists; reflexivity. }
  destruct Hupload as [pending1 [q1 Hupload]]. destruct Hfind as [pending2 [q2 Hfind]].
  split; [exists pending1; rewrite Hupload; reflexivity |].
  split; [apply uploadFile_settle_completes |].
  split.
  { unfold uploadFile. unfold bind at 1. rewrite Hupload.
    destruct pending1; [apply uploadFile_settle_completes | reflexivity]. }
  split; [exists pending2; rewrite Hfind; reflexivity |].
  split; [apply findDuplicates_settle_completes |].
  unfold findDuplicates. unfold bind at 1. rewrite Hfind.
  destruct pending2; [apply findDuplicates_settle_completes | reflexivity].
Qed.

Lemma uploadFile_settle_refused (o : fetch_outcome) (p : page) :
  refused o = true ->
  exists e,
    uploadFile_try o p = (Throw e, p) /\
    uploadFile_settle o p
    = (Normal tt,
       emit (Alert ("Error processing file: " ++ message e))
         (emit (ConsoleError "Error:" e) p)).
Proof.
  intros Hrefused.
  destruct (uploadFile_try_cases o p)
    as [[_ [e Hrun]] | [data [f [d [k [sel [t [c [Ho [Haccepted _]]]]]]]]]].
  - exists e. split; [exact Hrun |].
    unfold uploadFile_settle, try_catch. rewrite Hrun. reflexivity.
  - subst o. simpl in Hrefused. rewrite Haccepted in Hrefused. discriminate Hrefused.
Qed.

(** X10.  When the upload request is refused (the network call or the JSON
    parse rejects, the body is [null], or it carries a truthy [error]) the
    page is left as it was: the only effects are the logged error and one
    notification starting with ["Error processing file: "]; for a rejection
    the text that follows is the rejection's message. *)
Theorem upload_refused_leaves_page (o : fetch_outcome) (p : page) :
  refused o = true ->
  exists e,
    uploadFile_settle o p
    = (Normal tt,
       emit (Alert ("Error processing file: " ++ message e))
         (emit (ConsoleError "Error:" e) p)) /\
    content (snd (uploadFile_settle o p)) = content p /\
    (forall r, o = FetchRejects r \/ o = JsonRejects r -> e = r).
Proof.
  intros Hrefused.
  destruct (uploadFile_settle_refused o p Hrefused) as [e [Htry Hrun]].
  exists e. rewrite Hrun. split; [reflexivity |]. split; [reflexivity |].
  intros r [-> | ->]; unfold uploadFile_try, await_json, bind, throw in Htry; congruence.
Qed.

Lemma currentData_after_settle (o : fetch_outcome) (p : page) :
  currentData (snd (uploadFile_settle o p))
  = match o with
    | JsonResolves data => if accepted data then data else currentData p
    | _ => currentData p
    end.
Proof.
  unfold uploadFile_settle, try_catch.
  destruct (uploadFile_try_cases o p)
    as [[Hrefused [e Hrun]] | [data [f [d [k [sel [t [c [Ho [Haccepted [Hrun _]]]]]]]]]]].
  - rewrite Hrun. simpl. destruct o as [r | r | data]; try reflexivity.
    simpl in Hrefused. destruct (accepted data); [discriminate Hrefused | reflexivity].
  - subst o. rewrite Hrun, Haccepted. destruct c as [[] | e]; reflexivity.
Qed.

(** X11.  A response that passes the [error] check (no [error], or a falsy
    one) becomes [currentData], also when displaying it then fails; any
    other outcome of the request leaves [currentData] as it was. *)
Theorem upload_stores_accepted_response (o : fetch_outcome) (p : page) :
  currentData (snd (uploadFile_settle o p))
  = match o with
    | JsonResolves data => if accepted data then data else currentData p
    | _ => currentData p
    end.
Proof. exact (currentData_after_settle o p). Qed.

(** X12.  The results section is revealed exactly when the [try] block of
    [uploadFile] completes, and then nothing is logged or notified; when it
    throws, the section keeps its display and the effects are the logged
    error and one ["Error processing file: "] notification.  In neither
    case is a request issued or the file selection changed. *)
Theorem upload_reveals_on_completion (o : fetch_outcome) (p : page) :
  let p' := snd (uploadFile_settle o p) in
  fileInput p' = fileInput p /\
  (fst (uploadFile_try o p) = Normal tt ->
   resultsSection p' = "block" /\ effects p' = effects p) /\
  (forall e, fst (uploadFile_try o p) = Throw e ->
     resultsSection p' = resultsSection p /\
     effects p'
     = (effects p ++ [ConsoleError "Error:" e;
                      Alert ("Error processing file: " ++ message e)])%list).
Proof.
  cbv zeta. unfold uploadFile_settle, try_catch.
  destruct (uploadFile_try_cases o p)
    as [[_ [e Hrun]] | [data [f [d [k [sel [t [c [Ho [Haccepted [Hrun _]]]]]]]]]]];
    rewrite Hrun.
  - simpl. split; [reflexivity |]. split; [discriminate |].
    intros e' He'. injection He' as <-. rewrite <- app_assoc. split; reflexivity.
  - destruct c as [[] | e]; simpl.
    + split; [reflexivity |]. split; [split; reflexivity | discriminate].
    + split; [reflexivity |]. split; [discriminate |].
      intros e' He'. injection He' as <-. rewrite <- app_assoc. split; reflexivity.
Qed.

(** X13.  A well-formed response whose preview is a non-empty sequence of
    records that can be shown: the upload completes, nothing is notified,
    and the page shows the response in full (stored data, file name,
    dimensions, duplicate count, one option per column, the preview table,
    the results section revealed).  What is shown is determined by the
    response: nothing of an earlier upload remains. *)
Theorem upload_success_page (data : value) (name : string) (cols : list string)
    (rows columns duplicates : number) (first : list (string * value))
    (rest : list (list (string * value))) (p q : page) :
  UploadResult data name cols rows columns duplicates (VArr (map VObj (first :: rest))) ->
  Forall record_renders (first :: rest) ->
  let p' := snd (uploadFile_settle (JsonResolves data) p) in
  let q' := snd (uploadFile_settle (JsonResolves data) q) in
  currentData p' = data /\
  filename p' = name /\
  dimensions p'
  = number_to_string rows ++ " rows × " ++ number_to_string columns ++ " columns" /\
  dupeCount p' = number_to_string duplicates /\
  options (dupeColumn p') = options_of cols /\
  previewTable p' = rendering (first :: rest) /\
  resultsSection p' = "block" /\
  effects p' = effects p /\
  fileInput p' = fileInput p /\
  set_fileInput (fileInput p) (content q') = content p'.
Proof.
  intros Hdata Hrecords. cbv zeta.
  rewrite !(upload_success data name cols rows columns duplicates first rest _ Hdata Hrecords).
  repeat split.
Qed.

(** *** findDuplicates *)

(** The three pages [findDuplicates_settle] can leave. *)
Lemma findDuplicates_settle_cases (o : fetch_outcome) (p : page) :
  (exists e,
      findDuplicates_settle o p
      = (Normal tt,
         emit (Alert ("Error finding duplicates: " ++ message e))
           (emit (ConsoleError "Error:" e) p))) \/
  (exists n t,
      findDuplicates_settle o p
      = (Normal tt,
         set_previewTable t (emit (Alert ("Found " ++ n ++ " duplicate entries")) p))) \/
  (exists n t e,
      findDuplicates_settle o p
      = (Normal tt,
         emit (Alert ("Error finding duplicates: " ++ message e))
           (emit (ConsoleError "Error:" e)
              (set_previewTable t
                 (emit (Alert ("Found " ++ n ++ " duplicate entries")) p))))).
Proof.
  unfold findDuplicates_settle, try_catch.
  destruct (findDuplicates_try_cases o p)
    as [[e Hrun] | [data [n [t [c [_ [_ Hrun]]]]]]]; rewrite Hrun.
  - left. exists e. reflexivity.
  - destruct c as [[] | e].
    + right. left. exists n, t. reflexivity.
    + right. right. exists n, t, e. reflexivity.
Qed.

Lemma findDuplicates_cases (o : fetch_outcome) (p : page) :
  findDuplicates o p = (Normal tt, p) \/
  exists preview,
    truthy (currentData p) = true /\
    get (currentData p) "preview" = Normal preview /\
    findDuplicates o p
    = findDuplicates_settle o
        (emit (Fetch (find_duplicates_request preview (select_value (dupeColumn p)))) p).
Proof.
  unfold findDuplicates.
  destruct (findDuplicates_click_cases p) as [[_ Hrun] | [preview [Hset [Hread Hrun]]]].
  - left. unfold bind at 1. rewrite Hrun. reflexivity.
  - right. exists preview. split; [exact Hset |]. split; [exact Hread |].
    unfold bind at 1. rewrite Hrun. reflexivity.
Qed.

Lemma search_keeps_data_and_selector (o : fetch_outcome) (p : page) :
  currentData (snd (findDuplicates o p)) = currentData p /\
  dupeColumn (snd (findDuplicates o p)) = dupeColumn p.
Proof.
  destruct (findDuplicates_cases o p) as [Hrun | [preview [_ [_ Hrun]]]]; rewrite Hrun.
  - split; reflexivity.
  - destruct (findDuplicates_settle_cases o
                (emit (Fetch (find_duplicates_request preview (select_value (dupeColumn p)))) p))
      as [[e Hsettle] | [[n [t Hsettle]] | [n [t [e Hsettle]]]]];
      rewrite Hsettle; split; reflexivity.
Qed.

(** X14.  [findDuplicates] never writes what an upload displayed or stored:
    whatever the page holds and however the request settles, [currentData],
    the file selection, the three text elements, the selector and the
    display of the results section are after the run what they were
    before.  Only the preview table and the effects can differ. *)
Theorem findDuplicates_keeps_upload_state (o : fetch_outcome) (p : page) :
  let p' := snd (findDuplicates o p) in
  currentData p' = currentData p /\
  fileInput p' = fileInput p /\
  filename p' = filename p /\
  dimensions p' = dimensions p /\
  dupeCount p' = dupeCount p /\
  dupeColumn p' = dupeColumn p /\
  resultsSection p' = resultsSection p.
Proof.
  cbv zeta.
  destruct (findDuplicates_cases o p) as [Hrun | [preview [_ [_ Hrun]]]]; rewrite Hrun.
  - repeat split.
  - destruct (findDuplicates_settle_cases o
                (emit (Fetch (find_duplicates_request preview (select_value (dupeColumn p)))) p))
      as [[e Hsettle] | [[n [t Hsettle]] | [n [t [e Hsettle]]]]];
      rewrite Hsettle; repeat split.
Qed.

(** X15.  When a find-duplicates request settles, the handler shows at most
    one ["Found N duplicate entries"] notification and at most one
    ["Error finding duplicates: "] notification, in that order, the latter
    right after the logged error; it issues no request. *)
Theorem findDuplicates_settle_effects (o : fetch_outcome) (p : page) :
  exists l,
    effects (snd (findDuplicates_settle o p)) = (effects p ++ l)%list /\
    ((exists n, l = [Alert ("Found " ++ n ++ " duplicate entries")]) \/
     (exists e,
         l = [ConsoleError "Error:" e;
              Alert ("Error finding duplicates: " ++ message e)]) \/
     (exists n e,
         l = [Alert ("Found " ++ n ++ " duplicate entries");
              ConsoleError "Error:" e;
              Alert ("Error finding duplicates: " ++ message e)])).
Proof.
  destruct (findDuplicates_settle_cases o p)
    as [[e Hsettle] | [[n [t Hsettle]] | [n [t [e Hsettle]]]]]; rewrite Hsettle; simpl.
  - eexists. split; [rewrite <- app_assoc; reflexivity |].
    right. left. exists e. reflexivity.
  - eexists. split; [reflexivity |]. left. exists n. reflexivity.
  - eexists. split; [rewrite <- !app_assoc; reflexivity |].
    right. right. exists n, e. reflexivity.
Qed.

(** X16.  Searching again searches the uploaded preview again: after a run
    of [findDuplicates], however it went, a further click issues the very
    request that a click before the run would have issued; what the table
    shows meanwhile (the duplicates found) is never what is sent. *)
Theorem findDuplicates_again_same_request (o : fetch_outcome) (p q : page) (r : request) :
  findDuplicates_click p = (Normal (Some r), q) ->
  findDuplicates_click (snd (findDuplicates o p))
  = (Normal (Some r), emit (Fetch r) (snd (findDuplicates o p))).
Proof.
  intros Hclick.
  destruct (findDuplicates_click_cases p) as [[_ Hrun] | [preview [Hset [Hread Hrun]]]];
    rewrite Hrun in Hclick; [discriminate Hclick |].
  injection Hclick as <- _.
  destruct (search_keeps_data_and_selector o p) as [Hdata Hcolumn].
  destruct (findDuplicates_click_cases (snd (findDuplicates o p)))
    as [[Hnull _] | [preview' [_ [Hread' Hrun']]]].
  - rewrite Hdata, Hset in Hnull. discriminate Hnull.
  - rewrite Hrun'. rewrite Hdata in Hread'. rewrite Hcolumn.
    assert (preview' = preview) by congruence. subst preview'. reflexivity.
Qed.

(** *** An upload followed by a search *)

Lemma dupeColumn_after_upload (data : value) (name : string) (cols : list string)
    (rows columns duplicates : number) (preview : value) (p : page) :
  UploadResult data name cols rows columns duplicates preview ->
  dupeColumn (snd (uploadFile_settle (JsonResolves data) p)) = populated cols.
Proof.
  intros Hdata. unfold uploadFile_settle, try_catch.
  rewrite (upload_reaches_preview _ _ _ _ _ _ _ _ Hdata).
  destruct (displayPreview_only_table preview) as [c [t Ht]].
  unfold bind at 1. rewrite Ht. destruct c as [[] | e]; reflexivity.
Qed.

(** X17.  The rows received are the rows sent back: after a well-formed
    upload response, whether or not its preview could be rendered, a click
    on find-duplicates issues a request whose [data] is the [preview] of
    that response as [JSON.stringify] writes it, which is the preview
    itself when its numbers are all written back as they are (finite, not
    negative zero). *)
Theorem upload_then_search_sends_preview (data : value) (name : string)
    (cols : list string) (rows columns duplicates : number) (preview : value) (p : page) :
  UploadResult data name cols rows columns duplicates preview ->
  let loaded := snd (uploadFile_settle (JsonResolves data) p) in
  exists r sent,
    findDuplicates_click loaded = (Normal (Some r), emit (Fetch r) loaded) /\
    url r = "/data/find_duplicates" /\
    body r = JSON_text sent /\
    get sent "data" = Normal (JSON_denoted preview) /\
    (json_stable preview -> get sent "data" = Normal preview).
Proof.
  intros Hdata. cbv zeta.
  destruct (upload_stores_response _ _ _ _ _ _ _ p Hdata) as [Htruthy Hstored].
  destruct (findDuplicates_click_cases (snd (uploadFile_settle (JsonResolves data) p)))
    as [[Hnull _] | [preview' [_ [Hread Hrun]]]].
  - rewrite Hstored, Htruthy in Hnull. discriminate Hnull.
  - rewrite Hstored in Hread.
    assert (preview' = preview).
    { destruct Hdata as [_ [_ [_ [_ Hpreview]]]]. congruence. }
    subst preview'.
    destruct (stringify_data_column preview
                (select_value (dupeColumn (snd (uploadFile_settle (JsonResolves data) p)))))
      as [sent [Hsent [Hsent_data _]]].
    eexists. exists sent. split; [exact Hrun |]. split; [reflexivity |].
    split; [simpl; rewrite Hsent; reflexivity |]. split; [exact Hsent_data |].
    intros Hstable. rewrite Hsent_data, (JSON_denoted_stable preview Hstable). reflexivity.
Qed.

(** X18.  After a well-formed upload response the selector, a drop-down
    just repopulated, has its first option selected: a search started
    without choosing a column asks for the first column name (for the empty
    string when there are no columns), whatever was chosen before the
    upload. *)
Theorem upload_selects_first_column (data : value) (name : string)
    (cols : list string) (rows columns duplicates : number) (preview : value) (p : page) :
  UploadResult data name cols rows columns duplicates preview ->
  let loaded := snd (uploadFile_settle (JsonResolves data) p) in
  select_value (dupeColumn loaded) = hd "" cols /\
  exists r sent,
    findDuplicates_click loaded = (Normal (Some r), emit (Fetch r) loaded) /\
    body r = JSON_text sent /\
    get sent "column" = Normal (VStr (hd "" cols)).
Proof.
  intros Hdata. cbv zeta.
  assert (Hvalue : select_value (dupeColumn (snd (uploadFile_settle (JsonResolves data) p)))
                   = hd "" cols).
  { rewrite (dupeColumn_after_upload _ _ _ _ _ _ _ p Hdata). destruct cols; reflexivity. }
  split; [exact Hvalue |].
  destruct (upload_stores_response _ _ _ _ _ _ _ p Hdata) as [Htruthy Hstored].
  destruct (findDuplicates_click_cases (snd (uploadFile_settle (JsonResolves data) p)))
    as [[Hnull _] | [preview' [_ [Hread Hrun]]]].
  - rewrite Hstored, Htruthy in Hnull. discriminate Hnull.
  - destruct (stringify_data_column preview' (hd "" cols)) as [sent [Hsent [_ Hcolumn]]].
    rewrite Hvalue in Hrun.
    eexists. exists sent. split; [exact Hrun |].
    split; [simpl; rewrite Hsent; reflexivity | exact Hcolumn].
Qed.

(** X19.  When the stored response has no [preview] (the upload was
    accepted but the body lacked the field), a search still issues its
    request, and the body then has no [data] at all: it consists of the
    [column] alone. *)
Theorem search_without_preview (p : page) :
  truthy (currentData p) = true ->
  get (currentData p) "preview" = Normal VUndefined ->
  exists r,
    findDuplicates_click p = (Normal (Some r), emit (Fetch r) p) /\
    body r = JSON_text (VObj [("column", VStr (select_value (dupeColumn p)))]).
Proof.
  intros Hset Hmissing.
  destruct (findDuplicates_click_cases p) as [[Hnull _] | [preview [_ [Hread Hrun]]]].
  - rewrite Hset in Hnull. discriminate Hnull.
  - assert (preview = VUndefined) by congruence. subst preview.
    eexists. split; [exact Hrun | reflexivity].
Qed.

(** X20.  A find-duplicates response that passes the [error] check but has
    no [duplicates] (absent or [null]): the count is announced all the
    same, then the rendering empties the table and throws the [TypeError]
    of reading [0] of [undefined], or of [null], and that failure is logged
    and notified. *)
Theorem search_response_without_duplicates (data count : value) (base : nullish)
    (n : string) (p : page) :
  accepted data = true ->
  get data "count" = Normal count ->
  ToString count = Normal n ->
  get data "duplicates" = Normal (nullish_value base) ->
  let e := TypeError (ReadOfNullish base "0") in
  findDuplicates_settle (JsonResolves data) p
  = (Normal tt,
     emit (Alert ("Error finding duplicates: " ++ message e))
       (emit (ConsoleError "Error:" e)
          (set_previewTable []
             (emit (Alert ("Found " ++ n ++ " duplicate entries")) p)))).
Proof.
  intros Haccepted Hcount Hn Hduplicates. cbv zeta.
  unfold accepted in Haccepted.
  destruct (get data "error") as [error | e0] eqn:Eerror; [| discriminate Haccepted].
  apply negb_true_iff in Haccepted.
  unfold findDuplicates_settle, try_catch, findDuplicates_try, await_json.
  unfold bind at 1, ret at 1.
  unfold bind at 1, lift at 1. rewrite Eerror.
  unfold bind at 1. rewrite Haccepted. unfold ret at 1.
  unfold bind at 1, lift at 1. rewrite Hcount.
  unfold bind at 1, lift at 1. rewrite Hn.
  unfold bind at 1, alert at 1, modify at 1.
  unfold bind at 1, lift at 1. rewrite Hduplicates.
  destruct base; reflexivity.
Qed.

(** *** The page over a run of events *)

Lemma run_cons (ev : event) (events : list event) (b : browser) :
  run (ev :: events) b = run events (dispatch ev b).
Proof. reflexivity. Qed.

Lemma uploadFile_click_cases (p : page) :
  (fileInput p = [] /\
   uploadFile_click p = (Normal None, emit (Alert "Please select a file first") p)) \/
  (exists f rest,
      fileInput p = f :: rest /\
      uploadFile_click p
      = (Normal (Some (upload_request f)), emit (Fetch (upload_request f)) p)).
Proof.
  destruct (fileInput p) as [| f rest] eqn:Efiles.
  - left. split; [reflexivity |].
    unfold uploadFile_click. unfold bind at 1, read at 1. rewrite Efiles. reflexivity.
  - right. exists f, rest. split; [reflexivity |].
    unfold uploadFile_click. unfold bind at 1, read at 1. rewrite Efiles. reflexivity.
Qed.

Lemma currentData_after_search_settle (o : fetch_outcome) (p : page) :
  currentData (snd (findDuplicates_settle o p)) = currentData p.
Proof.
  destruct (findDuplicates_settle_cases o p)
    as [[e Hsettle] | [[n [t Hsettle]] | [n [t [e Hsettle]]]]];
    rewrite Hsettle; reflexivity.
Qed.

Lemma currentData_after_dispatch (ev : event) (b : browser) :
  currentData (document (dispatch ev b)) = currentData (document b) \/
  exists k data,
    ev = Settles k (JsonResolves data) /\
    nth_error (in_flight b) k = Some Upload /\
    accepted data = true /\
    currentData (document (dispatch ev b)) = data.
Proof.
  destruct ev as [| | k o | files | i]; simpl.
  - left. unfold started.
    destruct (uploadFile_click_cases (document b)) as [[_ Hrun] | [f [rest [_ Hrun]]]];
      rewrite Hrun; reflexivity.
  - left. unfold started.
    destruct (findDuplicates_click_cases (document b))
      as [[_ Hrun] | [preview [_ [_ Hrun]]]];
      rewrite Hrun; reflexivity.
  - destruct (nth_error (in_flight b) k) as [[|] |] eqn:Ek; simpl.
    + rewrite currentData_after_settle.
      destruct o as [r | r | data]; try (left; reflexivity).
      destruct (accepted data) eqn:Eaccepted; [| left; reflexivity].
      right. exists k, data. repeat split; assumption.
    + left. apply currentData_after_search_settle.
    + left. reflexivity.
  - left. reflexivity.
  - left. reflexivity.
Qed.

(** X21.  From page load on, whatever the user does and however requests
    settle and overlap, [currentData] is [null] or a response that passed
    the [error] check: a body with a truthy [error] is never stored. *)
Theorem stored_data_passed_error_check (markup : page) (events : list event) :
  let data := currentData (document (run events (DOMContentLoaded markup))) in
  data = VNull \/ accepted data = true.
Proof.
  cbv zeta. unfold run.
  assert (Hinv : forall (evs : list event) (b : browser),
             (currentData (document b) = VNull \/
              accepted (currentData (document b)) = true) ->
             currentData (document (fold_left (fun b ev => dispatch ev b) evs b)) = VNull \/
             accepted (currentData (document (fold_left (fun b ev => dispatch ev b) evs b)))
             = true).
  { induction evs as [| ev evs IH]; intros b Hb; [exact Hb |].
    simpl. apply IH.
    destruct (currentData_after_dispatch ev b) as [Hsame | [k [data [_ [_ [Hok Hnew]]]]]].
    - rewrite Hsame. exact Hb.
    - right. rewrite Hnew. exact Hok. }
  apply Hinv. left. reflexivity.
Qed.

Lemma effects_after_dispatch (ev : event) (b : browser) :
  currentData (document b) = VNull ->
  (forall k o, ev = Settles k o -> refused o = true) ->
  currentData (document (dispatch ev b)) = VNull /\
  exists l,
    effects (document (dispatch ev b)) = (effects (document b) ++ l)%list /\
    forallb (fun e => negb (is_find_duplicates_fetch e)) l = true.
Proof.
  intros Hnull Hrefused. destruct ev as [| | k o | files | i]; simpl.
  - unfold started.
    destruct (uploadFile_click_cases (document b)) as [[_ Hrun] | [f [rest [_ Hrun]]]];
      rewrite Hrun; simpl; (split; [exact Hnull |]); eexists; split; reflexivity.
  - unfold started.
    destruct (findDuplicates_click_cases (document b))
      as [[_ Hrun] | [preview [Hset _]]].
    + rewrite Hrun. simpl. split; [exact Hnull |].
      exists []. rewrite app_nil_r. split; reflexivity.
    + rewrite Hnull in Hset. discriminate Hset.
  - destruct (nth_error (in_flight b) k) as [[|] |]; simpl.
    + destruct (uploadFile_settle_refused o (document b) (Hrefused k o eq_refl))
        as [e [_ Hrun]].
      rewrite Hrun. simpl. split; [exact Hnull |].
      eexists. split; [rewrite <- app_assoc; reflexivity | reflexivity].
    + destruct (findDuplicates_settle_cases o (document b))
        as [[e Hsettle] | [[n [t Hsettle]] | [n [t [e Hsettle]]]]];
        rewrite Hsettle; simpl; (split; [exact Hnull |]); eexists;
        (split; [rewrite <- ?app_assoc; reflexivity | reflexivity]).
    + split; [exact Hnull |]. exists []. rewrite app_nil_r. split; reflexivity.
  - split; [exact Hnull |]. exists []. rewrite app_nil_r. split; reflexivity.
  - split; [exact Hnull |]. exists []. rewrite app_nil_r. split; reflexivity.
Qed.

(** X22.  As long as no response has passed the [error] check, whatever is
    clicked, picked or chosen and however often, [currentData] stays [null]
    and no request goes to [/data/find_duplicates]. *)
Theorem no_search_before_accepted_upload (markup : page) (events : list event) :
  no_response_accepted events ->
  let p := document (run events (DOMContentLoaded markup)) in
  currentData p = VNull /\
  exists l,
    effects_since markup p l /\
    forallb (fun e => negb (is_find_duplicates_fetch e)) l = true.
Proof.
  intros Hevents. cbv zeta. unfold run, effects_since.
  assert (Hinv : forall (evs : list event) (b : browser),
             no_response_accepted evs ->
             currentData (document b) = VNull ->
             currentData (document (fold_left (fun b ev => dispatch ev b) evs b)) = VNull /\
             exists l,
               effects (document (fold_left (fun b ev => dispatch ev b) evs b))
               = (effects (document b) ++ l)%list /\
               forallb (fun e => negb (is_find_duplicates_fetch e)) l = true).
  { induction evs as [| ev evs IH]; intros b Hevs Hb.
    - split; [exact Hb |]. exists []. rewrite app_nil_r. split; reflexivity.
    - inversion Hevs as [| ? ? Hev Hevs']; subst. simpl.
      destruct (effects_after_dispatch ev b Hb) as [Hnull [l1 [Hl1 Hok1]]].
      { intros k o ->. exact Hev. }
      destruct (IH (dispatch ev b) Hevs' Hnull) as [Hnull' [l2 [Hl2 Hok2]]].
      split; [exact Hnull' |]. exists (l1 ++ l2)%list. split.
      + rewrite Hl2, Hl1, <- app_assoc. reflexivity.
      + rewrite forallb_app, Hok1, Hok2. reflexivity. }
  destruct (Hinv events (DOMContentLoaded markup) Hevents eq_refl) as [Hnull [l [Hl Hok]]].
  split; [exact Hnull |]. exists l. split; [exact Hl | exact Hok].
Qed.

(** X23.  Two uploads in flight: whichever accepted response arrives last
    is the one stored, in whatever order the two requests were issued. *)
Theorem last_response_wins (b : browser) (first second : value) :
  in_flight b = [Upload; Upload] ->
  accepted first = true ->
  accepted second = true ->
  currentData
    (document (run [Settles 0 (JsonResolves first); Settles 0 (JsonResolves second)] b))
  = second /\
  currentData
    (document (run [Settles 1 (JsonResolves second); Settles 0 (JsonResolves first)] b))
  = first.
Proof.
  intros Hflight Hfirst Hsecond. unfold run. simpl. rewrite Hflight. simpl.
  rewrite !currentData_after_settle, Hfirst, Hsecond. split; reflexivity.
Qed.

(** X24.  Nothing holds back a click while requests are in flight: with a
    file selected, [n] clicks on upload in a row issue [n] requests for
    that file and leave [n] more handlers suspended. *)
Theorem upload_clicks_pile_up (n : nat) (b : browser) (f : file) (rest : list file) :
  fileInput (document b) = f :: rest ->
  let b' := run (repeat ClickUploadBtn n) b in
  in_flight b' = (in_flight b ++ repeat Upload n)%list /\
  effects (document b')
  = (effects (document b) ++ repeat (Fetch (upload_request f)) n)%list /\
  content (document b') = content (document b).
Proof.
  cbv zeta. revert b. induction n as [| n IH]; intros b Hfile.
  - simpl. rewrite !app_nil_r. repeat split.
  - simpl repeat. rewrite run_cons.
    assert (Hstep : dispatch ClickUploadBtn b
                    = {| document := emit (Fetch (upload_request f)) (document b);
                         in_flight := (in_flight b ++ [Upload])%list |}).
    { simpl. unfold started.
      destruct (uploadFile_click_cases (document b)) as [[Hnone _] | [f' [rest' [Hf Hrun]]]].
      - rewrite Hfile in Hnone. discriminate Hnone.
      - rewrite Hfile in Hf. injection Hf as <- <-. rewrite Hrun. reflexivity. }
    rewrite Hstep.
    destruct (IH {| document := emit (Fetch (upload_request f)) (document b);
                    in_flight := (in_flight b ++ [Upload])%list |} Hfile)
      as [Hflight [Heffects Hcontent]].
    rewrite Hflight, Heffects, Hcontent. simpl.
    rewrite <- !app_assoc. repeat split.
Qed.

(** X25.  The column the user chooses is the column asked for: after a
    well-formed upload response, choosing the [i]-th option and clicking
    find-duplicates issues a request whose [column] is the [i]-th column
    name and whose [data] is the preview of the response as
    [JSON.stringify] writes it (the preview itself when its numbers are all
    written back as they are). *)
Theorem chosen_column_is_sent (b : browser) (data : value) (name : string)
    (cols : list string) (rows columns duplicates : number) (preview : value)
    (i : nat) (col : string) :
  in_flight b = [Upload] ->
  UploadResult data name cols rows columns duplicates preview ->
  nth_error cols i = Some col ->
  let b' := run [Settles 0 (JsonResolves data); ChoosesColumn i; ClickFindDupesBtn] b in
  in_flight b' = [FindDuplicates] /\
  exists q sent,
    document b' = emit (Fetch (find_duplicates_request preview col)) q /\
    effects q = effects (snd (uploadFile_settle (JsonResolves data) (document b))) /\
    body (find_duplicates_request preview col) = JSON_text sent /\
    get sent "column" = Normal (VStr col) /\
    get sent "data" = Normal (JSON_denoted preview) /\
    (json_stable preview -> get sent "data" = Normal preview).
Proof.
  intros Hflight Hdata Hcol. cbv zeta.
  set (loaded := snd (uploadFile_settle (JsonResolves data) (document b))).
  destruct (upload_stores_response _ _ _ _ _ _ _ (document b) Hdata) as [Htruthy Hstored].
  pose proof (dupeColumn_after_upload _ _ _ _ _ _ _ (document b) Hdata) as Hselector.
  fold loaded in Hstored, Hselector.
  assert (Hsettled : dispatch (Settles 0 (JsonResolves data)) b
                     = {| document := loaded; in_flight := [] |}).
  { simpl. rewrite Hflight. reflexivity. }
  set (chosen := set_dupeColumn (choose i (populated cols)) loaded).
  assert (Hchoose : dispatch (ChoosesColumn i) {| document := loaded; in_flight := [] |}
                    = {| document := chosen; in_flight := [] |}).
  { simpl. rewrite Hselector. reflexivity. }
  assert (Hi : Nat.ltb i (List.length (options (populated cols))) = true).
  { apply Nat.ltb_lt. simpl. unfold options_of. rewrite length_map.
    apply nth_error_Some. rewrite Hcol. discriminate. }
  assert (Hchosen : select_value (dupeColumn chosen) = col).
  { unfold chosen. simpl dupeColumn. unfold choose. rewrite Hi.
    unfold select_value. simpl. unfold options_of.
    rewrite nth_error_map, Hcol. reflexivity. }
  assert (Hclick : findDuplicates_click chosen
                   = (Normal (Some (find_duplicates_request preview col)),
                      emit (Fetch (find_duplicates_request preview col)) chosen)).
  { destruct (findDuplicates_click_cases chosen) as [[Hnull _] | [preview' [_ [Hread Hrun]]]].
    - unfold chosen in Hnull. simpl in Hnull. rewrite Hstored, Htruthy in Hnull.
      discriminate Hnull.
    - unfold chosen in Hread. simpl currentData in Hread. rewrite Hstored in Hread.
      assert (preview' = preview).
      { destruct Hdata as [_ [_ [_ [_ Hpreview]]]]. congruence. }
      subst preview'. rewrite Hrun, Hchosen. reflexivity. }
  rewrite run_cons, Hsettled, run_cons, Hchoose, run_cons.
  unfold run. simpl fold_left. simpl dispatch. unfold started. simpl document.
  rewrite Hclick. simpl.
  split; [reflexivity |].
  destruct (stringify_data_column preview col) as [sent [Hsent [Hsent_data Hsent_column]]].
  exists chosen, sent. split; [reflexivity |]. split; [reflexivity |].
  split; [simpl; rewrite Hsent; reflexivity |]. split; [exact Hsent_column |].
  split; [exact Hsent_data |].
  intros Hstable. rewrite Hsent_data, (JSON_denoted_stable preview Hstable). reflexivity.
Qed.

End Further.

(** ** Runs on the sample data *)

Import Samples.

#[local] Existing Instance sample_host.

Lemma findDuplicates_failure_notifies_witness :
  fst (findDuplicates_try (JsonResolves error_upload) loaded_page)
  = Throw (Error "No file part") /\
  last_alert (snd (findDuplicates_settle (JsonResolves error_upload) loaded_page))
  = Some "Error finding duplicates: No file part" /\
  previewTable (snd (findDuplicates_settle (JsonResolves error_upload) loaded_page))
  = previewTable loaded_page.
Proof.
  split; [reflexivity |].
  pose proof (findDuplicates_failure_notifies (host := sample_host)
                (JsonResolves error_upload) loaded_page (Error "No file part") eq_refl)
    as [Hlast [_ Hkept]].
  split; [exact Hlast | exact (proj2 (Hkept eq_refl))].
Defined.

(** The claim C1 as it stands fails when rendering faults: on a response
    with an empty [duplicates] list the invocation fails, and the preview
    table, which held the uploaded rows, has been emptied. *)
Lemma findDuplicates_render_fault_empties_table :
  ~ failure_keeps_table (JsonResolves no_duplicates) loaded_page.
Proof.
  unfold failure_keeps_table. intros Hkeeps.
  assert (Hfails : fails (findDuplicates_try (JsonResolves no_duplicates)) loaded_page).
  { exists (TypeError (NullishToObject Undefined)). reflexivity. }
  specialize (Hkeeps Hfails). vm_compute in Hkeeps. discriminate Hkeeps.
Qed.

Lemma upload_error_response_witness :
  get error_upload "error" = Normal (VStr "No file part") /\
  truthy (host := sample_host) (VStr "No file part") = true /\
  exists e p',
    uploadFile_settle (JsonResolves error_upload) loaded_page = (Normal tt, p') /\
    p' = emit (Alert ("Error processing file: " ++ message e))
              (emit (ConsoleError "Error:" e) loaded_page).
Proof.
  split; [reflexivity |]. split; [reflexivity |].
  destruct (upload_error_response (host := sample_host)
              error_upload (VStr "No file part") loaded_page eq_refl eq_refl)
    as [e [p' [Hrun [Hp' _]]]].
  exists e, p'. split; assumption.
Defined.

(** The claim C4 as it stands fails on a [null] value: its cell shows the
    empty string, and [String(null)] is ["null"]. *)
Lemma null_cell_is_not_String :
  ~ cells_show_String [record_with_null] fresh_page.
Proof.
  unfold cells_show_String. vm_compute body_rows. intros Hcells.
  inversion Hcells as [| record row records rows Hrow _]; subst.
  inversion Hrow as [| kv c kvs cs _ Hrest]; subst.
  inversion Hrest as [| kv c kvs cs [s [Hs Hc]] _]; subst.
  simpl in Hs. injection Hs as <-. discriminate Hc.
Qed.

Lemma displayPreview_renders_records_witness :
  Forall record_renders [record_with_null] /\
  displayPreview (VArr [VObj record_with_null]) loaded_page
  = (Normal tt,
     set_previewTable [Thead [[Th "name"; Th "email"]]; Tbody [[Td "Ann"; Td ""]]]
       loaded_page).
Proof.
  assert (Hall : Forall (record_renders (host := sample_host)) [record_with_null]).
  { repeat constructor. }
  split; [exact Hall |].
  exact (proj1 (displayPreview_renders_records (host := sample_host)
                  record_with_null [] loaded_page Hall)).
Defined.

Lemma uploadFile_without_file_witness :
  fileInput fresh_page = [] /\
  uploadFile (JsonResolves people_upload) fresh_page
  = (Normal tt, emit (Alert "Please select a file first") fresh_page).
Proof.
  split; [reflexivity |].
  exact (proj1 (proj2 (uploadFile_without_file (host := sample_host)
                         (JsonResolves people_upload) fresh_page eq_refl))).
Defined.

Lemma findDuplicates_before_upload_witness :
  currentData fresh_page = VNull /\
  findDuplicates (JsonResolves ann_duplicates) fresh_page = (Normal tt, fresh_page).
Proof.
  split; [reflexivity |].
  exact (proj2 (findDuplicates_before_upload (host := sample_host)
                  (JsonResolves ann_duplicates) fresh_page eq_refl)).
Defined.

Lemma people_preview_stable :
  json_stable (host := sample_host) (VArr (map VObj people_records)).
Proof. simpl. repeat split. Defined.

Lemma findDuplicates_request_sent_witness :
  truthy (currentData loaded_page) = true /\
  json_stable (host := sample_host) (VArr (map VObj people_records)) /\
  exists r sent,
    findDuplicates_click loaded_page = (Normal (Some r), emit (Fetch r) loaded_page) /\
    url r = "/data/find_duplicates" /\
    body r = JSON_text sent /\
    get sent "data" = Normal (VArr (map VObj people_records)) /\
    get sent "column" = Normal (VStr "name").
Proof.
  split; [reflexivity |]. split; [exact people_preview_stable |].
  destruct (findDuplicates_request_sent (host := sample_host) loaded_page eq_refl)
    as [preview [r [sent [Hread [Hclick [Hurl [_ [_ [Hbody [_ [Hdata Hcolumn]]]]]]]]]]].
  assert (Hpreview : preview = VArr (map VObj people_records)).
  { vm_compute in Hread. injection Hread as <-. reflexivity. }
  subst preview. exists r, sent.
  split; [exact Hclick |]. split; [exact Hurl |]. split; [exact Hbody |].
  split; [exact (Hdata people_preview_stable) | exact Hcolumn].
Defined.

(** The claim C7 as it stands fails on a number that JSON cannot write: the
    stored preview holds [Infinity], the body sent holds [null] in its
    place. *)
Lemma infinity_is_sent_as_null : ~ request_data_is_preview scores_page.
Proof.
  intros Hsame.
  pose proof (Hsame
                (find_duplicates_request
                   (VArr [VObj [("name", VStr "Ann"); ("score", VNum PositiveInfinity)]])
                   "name")
                (emit (Fetch (find_duplicates_request
                                (VArr [VObj [("name", VStr "Ann");
                                             ("score", VNum PositiveInfinity)]])
                                "name")) scores_page)
                (JSON_stringify
                   [("data", VArr [VObj [("name", VStr "Ann");
                                         ("score", VNum PositiveInfinity)]]);
                    ("column", VStr "name")])
                eq_refl eq_refl) as Hdata.
  vm_compute in Hdata. discriminate Hdata.
Qed.




Lemma people_upload_shape :
  UploadResult people_upload "people.csv" ["name"; "age"] (int 3) (int 2) (int 0)
    (VArr (map VObj people_records)).
Proof.
  unfold UploadResult. split; [exists VUndefined; split; reflexivity |].
  split; [reflexivity |]. split; [reflexivity |].
  split; [| reflexivity].
  eexists. split; [reflexivity |]. repeat split.
Defined.

Lemma empty_upload_shape :
  UploadResult empty_upload "empty.csv" ["name"; "age"] (int 0) (int 2) (int 0) (VArr []).
Proof.
  unfold UploadResult. split; [exists VUndefined; split; reflexivity |].
  split; [reflexivity |]. split; [reflexivity |].
  split; [| reflexivity].
  eexists. split; [reflexivity |]. repeat split.
Defined.


Lemma upload_empty_preview_witness :
  UploadResult empty_upload "empty.csv" ["name"; "age"] (int 0) (int 2) (int 0) (VArr []) /\
  currentData (snd (uploadFile_settle (JsonResolves empty_upload) fresh_page))
  = empty_upload /\
  resultsSection (snd (uploadFile_settle (JsonResolves empty_upload) fresh_page))
  = "none".
Proof.
  split; [exact empty_upload_shape |].
  pose proof (upload_empty_preview (host := sample_host)
                empty_upload "empty.csv" ["name"; "age"] (int 0) (int 2) (int 0) fresh_page
                empty_upload_shape) as [_ [Hdata [_ [_ [_ [_ [_ [Hhidden _]]]]]]]].
  split; [exact Hdata | exact Hhidden].
Defined.

(** ** Further runs on sample inputs *)

Import Cases.

Lemma displayPreview_fault_leaves_no_body_witness :
  fst (displayPreview rows_with_null loaded_page)
  = Throw (TypeError (NullishToObject Null)) /\
  previewTable (snd (displayPreview rows_with_null loaded_page)) = [Thead [[Th "name"]]].
Proof.
  split; [reflexivity |].
  destruct (displayPreview_fault_leaves_no_body (host := sample_host)
              rows_with_null loaded_page (TypeError (NullishToObject Null)) eq_refl)
    as [_ [Hempty | [keys Hheader]]].
  - discriminate Hempty.
  - reflexivity.
Defined.

Lemma displayPreview_completes_on_witness :
  fst (displayPreview mixed_rows fresh_page) = Normal tt /\
  previewTable (snd (displayPreview mixed_rows fresh_page))
  = [Thead [[Th "0"; Th "1"]]; Tbody [[Td "a"; Td "1"]; [Td "h"; Td "é"]]] /\
  exists first rest keys body,
    mixed_rows = VArr (first :: rest) /\
    Object_keys first = Normal keys /\
    previewTable (snd (displayPreview mixed_rows fresh_page))
    = [Thead [map Th keys]; Tbody body] /\
    Forall2 row_of (first :: rest) body /\
    List.length body = List.length (first :: rest).
Proof.
  split; [reflexivity |]. split; [reflexivity |].
  exact (displayPreview_completes_on (host := sample_host) mixed_rows fresh_page eq_refl).
Defined.

Lemma displayFileInfo_without_stats_witness :
  get upload_without_stats "stats" = Normal VUndefined /\
  displayFileInfo upload_without_stats fresh_page
  = (Throw (TypeError (ReadOfNullish Undefined "rows")),
     set_filename "people.csv" fresh_page).
Proof.
  split; [reflexivity |].
  exact (proj1 (displayFileInfo_without_stats (host := sample_host)
                  upload_without_stats (VStr "people.csv") Undefined "people.csv"
                  fresh_page eq_refl eq_refl eq_refl)).
Defined.

Lemma displayFileInfo_shows_witness :
  get stats_without_rows "rows" = Normal VUndefined /\
  displayFileInfo upload_without_rows fresh_page
  = (Normal tt,
     set_dupeCount ""
       (set_dimensions "undefined rows × 2 columns"
          (set_filename "people.csv" fresh_page))).
Proof.
  split; [reflexivity |].
  exact (displayFileInfo_shows (host := sample_host)
           upload_without_rows (VStr "people.csv") stats_without_rows
           VUndefined (VNum (int 2)) VNull fresh_page
           eq_refl eq_refl eq_refl eq_refl eq_refl eq_refl eq_refl eq_refl eq_refl).
Defined.



Lemma populateColumnSelect_fault_witness :
  fst (populateColumnSelect faulty_columns loaded_page)
  = Throw (TypeError NoPrimitiveValue) /\
  options (dupeColumn (snd (populateColumnSelect faulty_columns loaded_page)))
  = [ {| opt_value := "name"; opt_text := "name" |} ] /\
  exists done faulty rest,
    faulty_columns = VArr (done ++ faulty :: rest) /\
    renders faulty = false /\
    options (dupeColumn (snd (populateColumnSelect faulty_columns loaded_page)))
    = map option_of done.
Proof.
  split; [reflexivity |]. split; [reflexivity |].
  destruct (populateColumnSelect_fault (host := sample_host)
              faulty_columns loaded_page (TypeError NoPrimitiveValue) eq_refl)
    as [_ [[done [Hoptions [_ [_ [Hcut _]]]]] _]].
  destruct (Hcut _ eq_refl) as [faulty [rest [Hcols Hfaulty]]].
  exists done, faulty, rest. split; [rewrite <- Hcols; reflexivity |].
  split; [exact Hfaulty | exact Hoptions].
Defined.

Lemma upload_refused_leaves_page_witness :
  refused (host := sample_host) (FetchRejects failed_to_fetch) = true /\
  exists e,
    uploadFile_settle (FetchRejects failed_to_fetch) loaded_page
    = (Normal tt,
       emit (Alert ("Error processing file: " ++ message e))
         (emit (ConsoleError "Error:" e) loaded_page)) /\
    e = failed_to_fetch.
Proof.
  split; [reflexivity |].
  destruct (upload_refused_leaves_page (host := sample_host)
              (FetchRejects failed_to_fetch) loaded_page eq_refl)
    as [e [Hrun [_ Hreason]]].
  exists e. split; [exact Hrun |].
  exact (Hreason failed_to_fetch (or_introl eq_refl)).
Defined.

Lemma people_records_render :
  Forall (record_renders (host := sample_host)) people_records.
Proof. repeat constructor. Defined.

Lemma upload_success_page_witness :
  UploadResult people_upload "people.csv" ["name"; "age"] (int 3) (int 2) (int 0)
    (VArr (map VObj people_records)) /\
  Forall (record_renders (host := sample_host)) people_records /\
  dimensions (snd (uploadFile_settle (JsonResolves people_upload) page_after_empty_object))
  = "3 rows × 2 columns" /\
  resultsSection
    (snd (uploadFile_settle (JsonResolves people_upload) page_after_empty_object))
  = "block".
Proof.
  split; [exact people_upload_shape |]. split; [exact people_records_render |].
  pose proof (upload_success_page (host := sample_host)
                people_upload "people.csv" ["name"; "age"] (int 3) (int 2) (int 0)
                [("name", VStr "Ann"); ("age", VNum (int 31))]
                [ [("name", VStr "Bob"); ("age", VNum (int 27))];
                  [("name", VStr "Ann"); ("age", VNum (int 40))] ]
                page_after_empty_object fresh_page
                people_upload_shape people_records_render)
    as [_ [_ [Hdimensions [_ [_ [_ [Hrevealed _]]]]]]].
  split; [exact Hdimensions | exact Hrevealed].
Defined.

Lemma findDuplicates_again_same_request_witness :
  let r := find_duplicates_request (VArr (map VObj people_records)) "name" in
  findDuplicates_click loaded_page = (Normal (Some r), emit (Fetch r) loaded_page) /\
  findDuplicates_click (snd (findDuplicates (JsonResolves ann_duplicates) loaded_page))
  = (Normal (Some r),
     emit (Fetch r) (snd (findDuplicates (JsonResolves ann_duplicates) loaded_page))).
Proof.
  cbv zeta. split; [reflexivity |].
  exact (findDuplicates_again_same_request (host := sample_host)
           (JsonResolves ann_duplicates) loaded_page
           (emit (Fetch (find_duplicates_request (VArr (map VObj people_records)) "name"))
              loaded_page)
           (find_duplicates_request (VArr (map VObj people_records)) "name") eq_refl).
Defined.

Lemma upload_then_search_sends_preview_witness :
  UploadResult people_upload "people.csv" ["name"; "age"] (int 3) (int 2) (int 0)
    (VArr (map VObj people_records)) /\
  json_stable (host := sample_host) (VArr (map VObj people_records)) /\
  exists r sent,
    findDuplicates_click (snd (uploadFile_settle (JsonResolves people_upload) fresh_page))
    = (Normal (Some r),
       emit (Fetch r) (snd (uploadFile_settle (JsonResolves people_upload) fresh_page))) /\
    url r = "/data/find_duplicates" /\
    body r = JSON_text sent /\
    get sent "data" = Normal (VArr (map VObj people_records)).
Proof.
  split; [exact people_upload_shape |]. split; [exact people_preview_stable |].
  destruct (upload_then_search_sends_preview (host := sample_host)
              people_upload "people.csv" ["name"; "age"] (int 3) (int 2) (int 0)
              (VArr (map VObj people_records)) fresh_page people_upload_shape)
    as [r [sent [Hclick [Hurl [Hbody [_ Hdata]]]]]].
  exists r, sent. split; [exact Hclick |]. split; [exact Hurl |].
  split; [exact Hbody | exact (Hdata people_preview_stable)].
Defined.

Lemma upload_selects_first_column_witness :
  UploadResult people_upload "people.csv" ["name"; "age"] (int 3) (int 2) (int 0)
    (VArr (map VObj people_records)) /\
  select_value (dupeColumn (snd (uploadFile_settle (JsonResolves people_upload) fresh_page)))
  = "name".
Proof.
  split; [exact people_upload_shape |].
  exact (proj1 (upload_selects_first_column (host := sample_host)
                  people_upload "people.csv" ["name"; "age"] (int 3) (int 2) (int 0) _ fresh_page
                  people_upload_shape)).
Defined.

Lemma search_without_preview_witness :
  truthy (currentData page_after_empty_object) = true /\
  get (currentData page_after_empty_object) "preview" = Normal VUndefined /\
  exists r,
    findDuplicates_click page_after_empty_object
    = (Normal (Some r), emit (Fetch r) page_after_empty_object) /\
    body r = JSON_text (VObj [("column", VStr "")]).
Proof.
  split; [reflexivity |]. split; [reflexivity |].
  exact (search_without_preview (host := sample_host)
           page_after_empty_object eq_refl eq_refl).
Defined.

Lemma search_response_without_duplicates_witness :
  accepted count_only = true /\
  get count_only "duplicates" = Normal VUndefined /\
  previewTable (snd (findDuplicates_settle (JsonResolves count_only) loaded_page)) = [] /\
  last_alert (snd (findDuplicates_settle (JsonResolves count_only) loaded_page))
  = Some "Error finding duplicates: Cannot read properties of undefined (reading '0')".
Proof.
  split; [reflexivity |]. split; [reflexivity |].
  pose proof (search_response_without_duplicates (host := sample_host)
                count_only (@VNum sample_host (int 1)) Undefined "1" loaded_page
                eq_refl eq_refl eq_refl eq_refl) as Hrun.
  cbv zeta in Hrun. rewrite Hrun. split; reflexivity.
Defined.

Lemma refused_session_refused : no_response_accepted refused_session.
Proof. repeat constructor. Defined.

Lemma no_search_before_accepted_upload_witness :
  no_response_accepted refused_session /\
  currentData (document (run refused_session (DOMContentLoaded loaded_page))) = VNull.
Proof.
  split; [exact refused_session_refused |].
  exact (proj1 (no_search_before_accepted_upload (host := sample_host)
                  loaded_page refused_session refused_session_refused)).
Defined.

Lemma last_response_wins_witness :
  in_flight two_uploads_in_flight = [Upload; Upload] /\
  accepted people_upload = true /\
  accepted empty_upload = true /\
  currentData
    (document (run [Settles 1 (JsonResolves empty_upload);
                    Settles 0 (JsonResolves people_upload)] two_uploads_in_flight))
  = people_upload.
Proof.
  split; [reflexivity |]. split; [reflexivity |]. split; [reflexivity |].
  exact (proj2 (last_response_wins (host := sample_host)
                  two_uploads_in_flight people_upload empty_upload
                  eq_refl eq_refl eq_refl)).
Defined.

Lemma upload_clicks_pile_up_witness :
  fileInput (document file_picked) = [a_file] /\
  in_flight (run (repeat ClickUploadBtn 3) file_picked) = [Upload; Upload; Upload].
Proof.
  split; [reflexivity |].
  exact (proj1 (upload_clicks_pile_up (host := sample_host)
                  3 file_picked a_file [] eq_refl)).
Defined.

Lemma chosen_column_is_sent_witness :
  in_flight one_upload_in_flight = [Upload] /\
  nth_error ["name"; "age"] 1 = Some "age" /\
  in_flight (run [Settles 0 (JsonResolves people_upload); ChoosesColumn 1;
                  ClickFindDupesBtn] one_upload_in_flight)
  = [FindDuplicates] /\
  exists q sent,
    document (run [Settles 0 (JsonResolves people_upload); ChoosesColumn 1;
                   ClickFindDupesBtn] one_upload_in_flight)
    = emit (Fetch (find_duplicates_request (VArr (map VObj people_records)) "age")) q /\
    body (find_duplicates_request (VArr (map VObj people_records)) "age")
    = JSON_text sent /\
    get sent "column" = Normal (VStr "age") /\
    get sent "data" = Normal (VArr (map VObj people_records)).
Proof.
  split; [reflexivity |]. split; [reflexivity |].
  destruct (chosen_column_is_sent (host := sample_host)
              one_upload_in_flight people_upload "people.csv" ["name"; "age"]
              (int 3) (int 2) (int 0) (VArr (map VObj people_records)) 1 "age"
              eq_refl people_upload_shape eq_refl)
    as [Hflight [q [sent [Hdocument [_ [Hbody [Hcolumn [_ Hdata]]]]]]]].
  split; [exact Hflight |]. exists q, sent.
  split; [exact Hdocument |]. split; [exact Hbody |]. split; [exact Hcolumn |].
  exact (Hdata people_preview_stable).
Defined.
